(** * Energy optimizer: prediction service, weather client and dashboard cap

    A shallow embedding of [backend/app.py], [backend/weather_service.py],
    [sensor_feed.py], [setup_weather_api.py] and of the weather, sensor,
    prediction and safety-buffer code of [streamlit_app.py].

    Python floats are IEEE binary64 numbers and are embedded as Rocq's
    primitive floats, so every arithmetic step rounds as it does in CPython.
    Values that come out of JSON are embedded as [pyval]; exceptions are
    embedded with [result]; a string is the UTF-8 encoding of the text.
    The clock, the network, the C library's sine and the interpreter's
    number parsers and case tables are outside the repository: the first two
    are inputs of each call ([Env]), the others are fields of the class
    [Runtime]. *)

From Stdlib Require Import ZArith Floats String Ascii List Bool Lia.
Import ListNotations.

Set Warnings "-inexact-float,-register-all".

Local Open Scope Z_scope.

(** ** Exceptions *)

Inductive exn : Type :=
| KeyError (key : string)
| IndexError
| TypeError
| ValueError
| AttributeError
| OverflowError
| RequestException (msg : string).

Inductive result (A : Type) : Type :=
| Ok (a : A)
| Raise (e : exn).

Arguments Ok {A} a.
Arguments Raise {A} e.

Definition bind {A B : Type} (r : result A) (k : A -> result B) : result B :=
  match r with
  | Ok a => k a
  | Raise e => Raise e
  end.

Declare Scope py_scope.
Delimit Scope py_scope with py.
Notation "x <- c ;; k" := (bind c (fun x => k))
  (at level 61, c at next level, right associativity) : py_scope.

(** ** Python values as they come out of a JSON body *)

Inductive pyval : Type :=
| PyNone
| PyBool (b : bool)
| PyInt (z : Z)
| PyFloat (f : float)
| PyStr (s : string)
| PyList (l : list pyval)
| PyDict (kv : list (string * pyval)).

(** Truth value of an object, as [if x], [x or y] and [not x] test it. *)
Definition truthy (v : pyval) : bool :=
  match v with
  | PyNone => false
  | PyBool b => b
  | PyInt z => negb (z =? 0)
  | PyFloat f => negb (f =? 0)%float
  | PyStr s => negb (String.eqb s EmptyString)
  | PyList l => match l with [] => false | _ => true end
  | PyDict kv => match kv with [] => false | _ => true end
  end.

(** [x or y] *)
Definition py_or (x y : pyval) : pyval := if truthy x then x else y.

(** ** Numbers *)

(** [float(n)] for an int: rounded to the nearest double, ties to even;
    [OverflowError] when the nearest double would be infinite. *)
Definition float_of_int (z : Z) : result float :=
  match binary_normalize prec emax z 0 false with
  | S754_infinity _ => Raise OverflowError
  | sf => Ok (SF2Prim sf)
  end.

(** [int(x)] for a float: truncation towards zero. *)
Definition int_of_float (f : float) : result Z :=
  match Prim2SF f with
  | S754_zero _ => Ok 0
  | S754_finite s m e => Ok (cond_Zopp s (Z.shiftl (Zpos m) e))
  | S754_infinity _ => Raise OverflowError
  | S754_nan => Raise ValueError
  end.

(** Nearest integer to [num / den] ([den > 0]), ties to the even one. *)
Definition round_half_even (num den : Z) : Z :=
  let q := num / den in
  let r := num mod den in
  match 2 * r ?= den with
  | Lt => q
  | Gt => q + 1
  | Eq => if Z.even q then q else q + 1
  end.

(** [round(x, ndigits)] for a float and [0 <= ndigits]: CPython prints the
    exact binary value with [ndigits] decimals, correctly rounded (ties to
    even), and reads the decimal string back as the nearest double.
    Infinities, NaN and zeros round to themselves, and so does everything
    beyond 323 digits. *)
Definition py_round (x : float) (ndigits : N) : float :=
  match Prim2SF x with
  | S754_finite s m e =>
      if (323 <? ndigits)%N then x
      else
        let p := 10 ^ Z.of_N ndigits in
        let num := if 0 <=? e then Zpos m * 2 ^ e * p else Zpos m * p in
        let den := if 0 <=? e then 1 else 2 ^ (- e) in
        match round_half_even num den with
        | Zpos n =>
            SF2Prim (SFdiv prec emax (S754_finite s n 0)
                                     (S754_finite false (Z.to_pos p) 0))
        | _ => SF2Prim (S754_zero s)
        end
  | _ => x
  end.

(** The builtins [max(a, b)] and [min(a, b)] on two floats: the first
    argument is kept unless the second compares strictly beyond it. *)
Definition py_max (a b : float) : float := if (a <? b)%float then b else a.
Definition py_min (a b : float) : float := if (b <? a)%float then b else a.

(** [math.pi] *)
Definition math_pi : float := 0x1.921fb54442d18p+1%float.

(** ** Strings

    A string is the UTF-8 encoding of the Python text, byte by byte, so
    that equal texts are equal strings and a search for an ASCII character
    finds the same places.  White space is what [str.isspace] accepts: the
    ASCII codes 9 to 13 and 28 to 32, and the code points U+0085, U+00A0,
    U+1680, U+2000 to U+200A, U+2028, U+2029, U+202F, U+205F and U+3000
    in their encodings of two and three bytes. *)

Definition is_space (c : ascii) : bool :=
  let n := N_of_ascii c in
  ((9 <=? n) && (n <=? 13) || (28 <=? n) && (n <=? 32))%N.

(** U+0085 and U+00A0 *)
Definition is_space2 (c d : ascii) : bool :=
  let n := N_of_ascii d in
  (N_of_ascii c =? 194)%N && ((n =? 133) || (n =? 160))%N.

(** U+1680, U+2000 to U+200A, U+2028, U+2029, U+202F, U+205F and U+3000 *)
Definition is_space3 (c d e : ascii) : bool :=
  let c := N_of_ascii c in
  let d := N_of_ascii d in
  let e := N_of_ascii e in
  ((c =? 225) && (d =? 154) && (e =? 128)
   || (c =? 226) && (d =? 128)
      && ((128 <=? e) && (e <=? 138) || (e =? 168) || (e =? 169) || (e =? 175))
   || (c =? 226) && (d =? 129) && (e =? 159)
   || (c =? 227) && (d =? 128) && (e =? 128))%N.

Definition is_upper (c : ascii) : bool :=
  let n := N_of_ascii c in ((65 <=? n) && (n <=? 90))%N.

Definition is_lower (c : ascii) : bool :=
  let n := N_of_ascii c in ((97 <=? n) && (n <=? 122))%N.

Definition to_upper (c : ascii) : ascii :=
  if is_lower c then ascii_of_N (N_of_ascii c - 32) else c.

Definition to_lower (c : ascii) : ascii :=
  if is_upper c then ascii_of_N (N_of_ascii c + 32) else c.

(** [s.lstrip()] *)
Fixpoint lstrip (s : string) : string :=
  match s with
  | String c s1 =>
      if is_space c then lstrip s1
      else match s1 with
           | String d s2 =>
               if is_space2 c d then lstrip s2
               else match s2 with
                    | String e s3 => if is_space3 c d e then lstrip s3 else s
                    | EmptyString => s
                    end
           | EmptyString => s
           end
  | EmptyString => EmptyString
  end.

(** Nothing but white space. *)
Definition all_space (s : string) : bool :=
  match lstrip s with
  | EmptyString => true
  | String _ _ => false
  end.

(** [s.rstrip()]: the text up to the point from which only white space
    follows. *)
Fixpoint rstrip (s : string) : string :=
  match s with
  | String c s' => if all_space s then EmptyString else String c (rstrip s')
  | EmptyString => EmptyString
  end.

(** [s.strip()] *)
Definition str_strip (s : string) : string := rstrip (lstrip s).

(** [s.title()] on a text of ASCII characters: a letter is upper case after
    a character that is no letter and lower case after a letter. *)
Fixpoint title_from (previous_is_cased : bool) (s : string) : string :=
  match s with
  | EmptyString => EmptyString
  | String c s' =>
      if is_lower c then
        String (if previous_is_cased then c else to_upper c) (title_from true s')
      else if is_upper c then
        String (if previous_is_cased then to_lower c else c) (title_from true s')
      else String c (title_from false s')
  end.

Fixpoint is_ascii (s : string) : bool :=
  match s with
  | EmptyString => true
  | String c s' => (N_of_ascii c <? 128)%N && is_ascii s'
  end.

(** [needle in hay] for two strings *)
Fixpoint str_in (needle hay : string) : bool :=
  if String.prefix needle hay then true
  else match hay with
       | EmptyString => false
       | String _ hay' => str_in needle hay'
       end.

(** ** Containers *)

Fixpoint assoc (key : string) (kv : list (string * pyval)) : option pyval :=
  match kv with
  | [] => None
  | (k, v) :: kv' => if String.eqb k key then Some v else assoc key kv'
  end.

Definition is_str (key : string) (v : pyval) : bool :=
  match v with
  | PyStr s => String.eqb s key
  | _ => false
  end.

(** [key in v] for a string [key] *)
Definition py_contains (key : string) (v : pyval) : result bool :=
  match v with
  | PyDict kv => Ok (match assoc key kv with Some _ => true | None => false end)
  | PyList l => Ok (existsb (is_str key) l)
  | PyStr s => Ok (str_in key s)
  | _ => Raise TypeError
  end.

(** [v[key]] for a string [key] *)
Definition py_getitem (v : pyval) (key : string) : result pyval :=
  match v with
  | PyDict kv =>
      match assoc key kv with
      | Some x => Ok x
      | None => Raise (KeyError key)
      end
  | _ => Raise TypeError
  end.

(** The continuation bytes a string starts with: the rest of a
    character whose first byte has just been read. *)
Fixpoint continuation (s : string) : string :=
  match s with
  | String c s' =>
      if ((128 <=? N_of_ascii c) && (N_of_ascii c <? 192))%N
      then String c (continuation s')
      else EmptyString
  | EmptyString => EmptyString
  end.

(** [v[0]]; of a string, its first character. *)
Definition py_getitem0 (v : pyval) : result pyval :=
  match v with
  | PyList (x :: _) => Ok x
  | PyList [] => Raise IndexError
  | PyStr (String c s) => Ok (PyStr (String c (continuation s)))
  | PyStr EmptyString => Raise IndexError
  | PyDict _ => Raise (KeyError "0")
  | _ => Raise TypeError
  end.

(** [v.get(key, default)] *)
Definition py_get (v : pyval) (key : string) (default : pyval) : result pyval :=
  match v with
  | PyDict kv =>
      Ok (match assoc key kv with Some x => x | None => default end)
  | _ => Raise AttributeError
  end.

(** [v.strip()] *)
Definition py_strip (v : pyval) : result string :=
  match v with
  | PyStr s => Ok (str_strip s)
  | _ => Raise AttributeError
  end.

(** What the interpreter and the C library provide: the sine of [math.sin]
    (exact at zero, as C's Annex F requires), the parsers behind [float(s)]
    and [int(s)] for a string, the text of [str(e)], and [s.title()], which
    follows the case tables of the Unicode database and is [title_from] on a
    text of ASCII characters. *)
Class Runtime : Type := {
  sin : float -> float;
  sin_zero : sin 0%float = 0%float;
  float_of_str : string -> option float;
  int_of_str : string -> option Z;
  str_of_exn : exn -> string;
  str_title : string -> string;
  str_title_ascii :
    forall s, is_ascii s = true -> str_title s = title_from false s
}.

Section Builtins.
Context {rt : Runtime}.

(** [v.title()] *)
Definition py_title (v : pyval) : result pyval :=
  match v with
  | PyStr s => Ok (PyStr (str_title s))
  | _ => Raise AttributeError
  end.

(** [float(v)] *)
Definition py_float (v : pyval) : result float :=
  match v with
  | PyFloat f => Ok f
  | PyInt z => float_of_int z
  | PyBool b => Ok (if b then 1 else 0)%float
  | PyStr s =>
      match float_of_str s with
      | Some f => Ok f
      | None => Raise ValueError
      end
  | _ => Raise TypeError
  end.

(** [int(v)] *)
Definition py_int (v : pyval) : result Z :=
  match v with
  | PyInt z => Ok z
  | PyBool b => Ok (Z.b2z b)
  | PyFloat f => int_of_float f
  | PyStr s =>
      match int_of_str s with
      | Some z => Ok z
      | None => Raise ValueError
      end
  | _ => Raise TypeError
  end.

(** [math.sin(x)]: a domain error at the infinities. *)
Definition math_sin (x : float) : result float :=
  if is_infinity x then Raise ValueError else Ok (sin x).

(** The format specification [:.1f] applied to [v]; only whether it
    succeeds matters, the text goes to the console. *)
Definition format_1f (v : pyval) : result unit :=
  match v with
  | PyFloat _ => Ok tt
  | PyBool _ => Ok tt
  | PyInt z => bind (float_of_int z) (fun _ => Ok tt)
  | PyStr _ => Raise ValueError
  | _ => Raise TypeError
  end.
End Builtins.

(** ** The outside world of one call

    [time.time()] and [requests.get] are inputs.  A response object is
    embedded by the outcomes of the two methods the code calls on it. *)

Record Request : Type := {
  url : string;
  params : list (string * string);
  timeout : Z
}.

Inductive http_result : Type :=
| ConnectionFailed (e : exn)
| HttpResponse (raise_for_status : result unit) (json : result pyval).

Record Env : Type := {
  time_time : float;
  requests_get : Request -> http_result
}.

(** [response = requests.get(...); response.raise_for_status();
    data = response.json()] *)
Definition fetch_json (env : Env) (req : Request) : result pyval :=
  match requests_get env req with
  | ConnectionFailed e => Raise e
  | HttpResponse status body => bind status (fun _ => body)
  end.

(** ** backend/weather_service.py *)

Record WeatherService : Type := {
  api_key : option string;
  city : string;
  base_url : string;
  cache_timeout : float;
  _last_fetch : float;
  _cached_data : pyval
}.

(** [WeatherService.__init__], the key being what the argument or the
    environment variable gave. *)
Definition new_WeatherService (key : option string) (city : string)
  : WeatherService :=
  {| api_key := key;
     city := city;
     base_url := "https://api.openweathermap.org/data/2.5/weather";
     cache_timeout := 300;
     _last_fetch := 0;
     _cached_data := PyNone |}.

(** [not self.api_key] *)
Definition no_api_key (self : WeatherService) : bool :=
  match api_key self with
  | None => true
  | Some k => String.eqb k EmptyString
  end.

Definition weather_request (self : WeatherService) (seconds : Z) : Request :=
  {| url := base_url self;
     params := [("q", city self);
                ("appid", match api_key self with Some k => k | None => "" end);
                ("units", "metric")]%string;
     timeout := seconds |}.

(** The two assignments to the cache entry. *)
Definition store_cache (self : WeatherService) (temp_celsius : pyval)
  (current_time : float) : WeatherService :=
  {| api_key := api_key self;
     city := city self;
     base_url := base_url self;
     cache_timeout := cache_timeout self;
     _last_fetch := current_time;
     _cached_data := temp_celsius |}.

(** [self._cached_data and (current_time - self._last_fetch) < self.cache_timeout] *)
Definition cache_valid (self : WeatherService) (current_time : float) : bool :=
  truthy (_cached_data self)
  && (current_time - _last_fetch self <? cache_timeout self)%float.

Section Weather.
Context {rt : Runtime}.
Local Open Scope py_scope.
Local Open Scope string_scope.

(** The part of the [try] block of [get_current_temperature] that comes
    before the cache is written: the temperature found in the body, or
    [None] when the body lacks the two keys. *)
Definition read_temp (env : Env) (req : Request) : result (option pyval) :=
  data <- fetch_json env req ;;
  has_main <- py_contains "main" data ;;
  has_temp <- (if has_main : bool
               then main <- py_getitem data "main" ;; py_contains "temp" main
               else Ok false) ;;
  if has_temp : bool
  then main <- py_getitem data "main" ;;
       temp_celsius <- py_getitem main "temp" ;;
       Ok (Some temp_celsius)
  else Ok None.

(** [WeatherService.get_current_temperature]: the value returned, the
    service afterwards and the requests sent. *)
Definition get_current_temperature (self : WeatherService) (env : Env)
  : pyval * WeatherService * list Request :=
  if no_api_key self then (PyFloat 22, self, [])
  else
    let current_time := time_time env in
    if cache_valid self current_time then (_cached_data self, self, [])
    else
      let req := weather_request self 5 in
      match read_temp env req with
      | Ok (Some temp_celsius) =>
          let self' := store_cache self temp_celsius current_time in
          match format_1f temp_celsius with
          | Ok _ => (temp_celsius, self', [req])
          | Raise _ => (PyFloat 22, self', [req])
          end
      | Ok None => (PyFloat 22, self, [req])
      | Raise _ => (PyFloat 22, self, [req])
      end.

(** The dict built in the [try] block of [get_weather_info]. *)
Definition read_weather_info (self : WeatherService) (env : Env)
  (req : Request) : result pyval :=
  data <- fetch_json env req ;;
  main <- py_getitem data "main" ;;
  temp <- py_getitem main "temp" ;;
  weather <- py_getitem data "weather" ;;
  first <- py_getitem0 weather ;;
  description <- py_getitem first "description" ;;
  titled <- py_title description ;;
  name <- py_get data "name" (PyStr (city self)) ;;
  main_h <- py_getitem data "main" ;;
  humidity <- py_get main_h "humidity" (PyInt 0) ;;
  main_f <- py_getitem data "main" ;;
  main_t <- py_getitem data "main" ;;
  default <- py_getitem main_t "temp" ;;
  feels_like <- py_get main_f "feels_like" default ;;
  Ok (PyDict [("temperature", temp);
              ("description", titled);
              ("city", name);
              ("humidity", humidity);
              ("feels_like", feels_like);
              ("error", PyNone)]).

(** [WeatherService.get_weather_info]: the reading and the requests sent.
    The method assigns to no attribute. *)
Definition get_weather_info (self : WeatherService) (env : Env)
  : pyval * list Request :=
  if no_api_key self then
    (PyDict [("temperature", PyFloat 22);
             ("description", PyStr "Clear");
             ("city", PyStr (city self));
             ("error", PyStr "No API key")], [])
  else
    let req := weather_request self 5 in
    match read_weather_info self env req with
    | Ok reading => (reading, [req])
    | Raise e =>
        (PyDict [("temperature", PyFloat 22);
                 ("description", PyStr "Unknown");
                 ("city", PyStr (city self));
                 ("error", PyStr (str_of_exn e))], [req])
    end.
End Weather.

(** ** backend/app.py *)

(** A loaded model artifact, embedded by what [predict] does on one feature
    row [[hour, temperature, occupancy, is_weekend_true]]. *)
Definition Model : Type := list pyval -> result float.

(** The module-level state of the service. *)
Record App : Type := {
  trained_model : option Model;
  model_type : string;
  sensor_data : pyval;
  weather_service : WeatherService
}.

(** [sensor_data] as the module defines it. *)
Definition initial_sensor_data : pyval :=
  PyDict [("occupancy", PyInt 0);
          ("power_kW", PyNone);
          ("temperature", PyNone);
          ("timestamp", PyNone)]%string.

Definition with_weather_service (app : App) (ws : WeatherService) : App :=
  {| trained_model := trained_model app;
     model_type := model_type app;
     sensor_data := sensor_data app;
     weather_service := ws |}.

Definition with_sensor_data (app : App) (data : pyval) : App :=
  {| trained_model := trained_model app;
     model_type := model_type app;
     sensor_data := data;
     weather_service := weather_service app |}.

Definition with_city (self : WeatherService) (name : string) : WeatherService :=
  {| api_key := api_key self;
     city := name;
     base_url := base_url self;
     cache_timeout := cache_timeout self;
     _last_fetch := _last_fetch self;
     _cached_data := _cached_data self |}.

(** What a view function returns: [jsonify(body), status]. *)
Record Response : Type := {
  status : Z;
  body : pyval
}.

(** Flask answers 500 when a view function raises. *)
Definition flask_response (r : result Response) : Response :=
  match r with
  | Ok resp => resp
  | Raise _ => {| status := 500; body := PyNone |}
  end.

Section Service.
Context {rt : Runtime}.
Local Open Scope py_scope.
Local Open Scope string_scope.

Definition rule_based_predict (hour temperature occupancy is_weekend : pyval)
  : result float :=
  let base := 200%float in
  t <- py_float temperature ;;
  let temp_component := (5 * t)%float in
  o <- py_float occupancy ;;
  let occ_component := (2 * o)%float in
  w <- py_int is_weekend ;;
  let weekend_component := (20 * (if negb (w =? 0)%Z then 1 else 0))%float in
  h <- py_float hour ;;
  s <- math_sin (2 * math_pi * (h - 12) / 24)%float ;;
  let hour_component := (10 * s)%float in
  Ok (base + temp_component + occ_component + weekend_component
      + hour_component)%float.

(** The four reads of the request body that open [predict]. *)
Definition predict_fields (data : pyval)
  : result (pyval * pyval * pyval * pyval) :=
  hour <- py_getitem data "hour" ;;
  temperature <- py_get data "temperature" PyNone ;;
  occupancy <- py_getitem data "occupancy" ;;
  is_weekend <- py_getitem data "is_weekend" ;;
  Ok (hour, temperature, occupancy, is_weekend).

(** The model call and the response of [predict], once the temperature is
    resolved. *)
Definition predict_response (app : App)
  (hour temperature occupancy is_weekend : pyval) : result Response :=
  pred <- match trained_model app with
          | Some model =>
              w <- py_int is_weekend ;;
              let is_weekend_true := if negb (w =? 0)%Z then 1%Z else 0%Z in
              model [hour; temperature; occupancy; PyInt is_weekend_true]
          | None => rule_based_predict hour temperature occupancy is_weekend
          end ;;
  t <- py_float temperature ;;
  Ok {| status := 200;
        body := PyDict [("predicted_usage_kW", PyFloat (py_round pred 2));
                        ("model_type", PyStr (model_type app));
                        ("temperature_used", PyFloat (py_round t 1))] |}.

(** [POST /predict] on the JSON body [data]: the outcome of the view
    function, the service afterwards and the requests sent. *)
Definition predict (app : App) (env : Env) (data : pyval)
  : result Response * App * list Request :=
  match predict_fields data with
  | Raise e => (Raise e, app, [])
  | Ok (hour, PyNone, occupancy, is_weekend) =>
      let '(temperature, ws, sent) :=
        get_current_temperature (weather_service app) env in
      (predict_response app hour temperature occupancy is_weekend,
       with_weather_service app ws, sent)
  | Ok (hour, temperature, occupancy, is_weekend) =>
      (t <- py_float temperature ;;
       predict_response app hour (PyFloat t) occupancy is_weekend,
       app, [])
  end.

(** [POST /sensor_update] *)
Definition sensor_update (app : App) (data : pyval) : Response * App :=
  ({| status := 200; body := PyDict [("status", PyStr "ok")] |},
   with_sensor_data app data).

(** [GET /current_status] *)
Definition current_status (app : App) : Response :=
  {| status := 200; body := sensor_data app |}.

(** [GET /weather] *)
Definition get_weather (app : App) (env : Env) : Response * list Request :=
  let '(weather_info, sent) := get_weather_info (weather_service app) env in
  ({| status := 200; body := weather_info |}, sent).

(** [POST /set_city] on the JSON body [json_body]. *)
Definition set_city (app : App) (json_body : pyval) : result Response * App :=
  let data := py_or json_body (PyDict []) in
  match (c <- py_get data "city" PyNone ;; py_strip (py_or c (PyStr ""))) with
  | Raise e => (Raise e, app)
  | Ok name =>
      if negb (truthy (PyStr name)) then
        (Ok {| status := 400;
               body := PyDict [("error", PyStr "city is required")] |}, app)
      else
        (Ok {| status := 200;
               body := PyDict [("status", PyStr "ok"); ("city", PyStr name)] |},
         with_weather_service app (with_city (weather_service app) name))
  end.
End Service.

(** ** streamlit_app.py: sensor read, prediction and safety buffer *)

Section Dashboard.
Context {rt : Runtime}.
Local Open Scope py_scope.
Local Open Scope string_scope.

(** [fetch_sensor], on the outcome of [GET /current_status]: occupancy and
    power draw, both zero when anything fails. *)
Definition fetch_sensor (resp : http_result) : Z * float :=
  match (data <- (match resp with
                  | ConnectionFailed e => Raise e
                  | HttpResponse st js => bind st (fun _ => js)
                  end) ;;
         p <- py_get data "power_kW" PyNone ;;
         power <- py_float (py_or p (PyFloat 0)) ;;
         o <- py_get data "occupancy" PyNone ;;
         occ <- py_int (py_or o (PyInt 0)) ;;
         Ok (occ, power)) with
  | Ok r => r
  | Raise _ => (0%Z, 0%float)
  end.

(** The rule in the [except] branch of [get_backend_prediction]. *)
Definition fallback_rule (hour temperature occupancy is_weekend : pyval)
  : result float :=
  let base := 200%float in
  t <- py_float temperature ;;
  let temp_component := (5 * t)%float in
  o <- py_float occupancy ;;
  let occ_component := (2 * o)%float in
  w <- py_int is_weekend ;;
  let weekend_component := (20 * (if negb (w =? 0)%Z then 1 else 0))%float in
  h <- py_float hour ;;
  s <- math_sin (2 * math_pi * (h - 12) / 24)%float ;;
  let hour_component := (10 * s)%float in
  Ok (base + temp_component + occ_component + weekend_component
      + hour_component)%float.

(** The [try] block of [get_backend_prediction]; [post] is what
    [requests.post] does with the payload. *)
Definition backend_prediction (post : pyval -> http_result)
  (hour temperature occupancy is_weekend : pyval)
  : result (float * pyval * pyval) :=
  h <- py_int hour ;;
  t <- py_float temperature ;;
  o <- py_int occupancy ;;
  w <- py_int is_weekend ;;
  let payload := PyDict [("hour", PyInt h); ("temperature", PyFloat t);
                         ("occupancy", PyInt o); ("is_weekend", PyInt w)] in
  data <- (match post payload with
           | ConnectionFailed e => Raise e
           | HttpResponse st js => bind st (fun _ => js)
           end) ;;
  p <- py_get data "predicted_usage_kW" (PyFloat 0) ;;
  pred <- py_float p ;;
  m <- py_get data "model_type" (PyStr "unknown") ;;
  u <- py_get data "temperature_used" temperature ;;
  Ok (pred, m, u).

Definition get_backend_prediction (post : pyval -> http_result)
  (hour temperature occupancy is_weekend : pyval)
  : result (float * pyval * pyval) :=
  match backend_prediction post hour temperature occupancy is_weekend with
  | Ok r => Ok r
  | Raise _ =>
      pred <- fallback_rule hour temperature occupancy is_weekend ;;
      Ok (pred, PyStr "fallback", temperature)
  end.
End Dashboard.

(** The dynamic safety buffer of the dashboard. *)
Definition buffer_kW (current_usage : float) : float :=
  py_max 10 (py_min 60 (py_round (0.15 * py_max current_usage 0) 1)).

Definition max_allowed (current_usage : float) : float :=
  py_max (current_usage - buffer_kW current_usage) 0.

(** [pred_usage] after [if pred_usage > max_allowed: pred_usage = max_allowed]. *)
Definition capped_pred_usage (current_usage pred_usage : float) : float :=
  if (max_allowed current_usage <? pred_usage)%float
  then max_allowed current_usage
  else pred_usage.

(** ** A runtime to evaluate the embedding on examples

    The sine is its Taylor polynomial of degree seven, a string is a number
    when it is a run of decimal digits, [str(e)] is the class name and
    [title] knows the ASCII letters only.  No
    theorem below depends on these choices: each is stated for every
    [Runtime]. *)

Definition taylor_sin (x : float) : float :=
  (x - x * x * x / 6 + x * x * x * x * x / 120
     - x * x * x * x * x * x * x / 5040)%float.

Fixpoint digits_value (acc : Z) (s : string) : option Z :=
  match s with
  | EmptyString => Some acc
  | String c s' =>
      let n := Z.of_N (N_of_ascii c) in
      if (48 <=? n) && (n <=? 57) then digits_value (10 * acc + (n - 48)) s'
      else None
  end.

Definition digits_int (s : string) : option Z :=
  match s with
  | EmptyString => None
  | _ => digits_value 0 s
  end.

Definition digits_float (s : string) : option float :=
  match digits_int s with
  | Some z => match float_of_int z with Ok f => Some f | Raise _ => None end
  | None => None
  end.

Definition exn_name (e : exn) : string :=
  match e with
  | KeyError k => k
  | IndexError => "IndexError"
  | TypeError => "TypeError"
  | ValueError => "ValueError"
  | AttributeError => "AttributeError"
  | OverflowError => "OverflowError"
  | RequestException msg => msg
  end.

#[local] Instance sample_runtime : Runtime := {
  sin := taylor_sin;
  sin_zero := eq_refl;
  float_of_str := digits_float;
  int_of_str := digits_int;
  str_of_exn := exn_name;
  str_title := title_from false;
  str_title_ascii := fun _ _ => eq_refl
}.

(** ** Definitions the statements use

    The rule and the ceiling as the specification writes them, and the
    services, providers and requests of the examples. *)

(** Zeros and finite numbers. *)
Definition SFfinite (x : spec_float) : bool :=
  match x with
  | S754_zero _ | S754_finite _ _ _ => true
  | _ => false
  end.

(** The rule as the specification writes it, on doubles:
    [200.0 + 5.0*temperature + 2.0*occupancy + 20.0*is_weekend
     + 10.0*sin(2*pi*(hour-12)/24)]. *)
Definition usage_formula {rt : Runtime}
  (hour temperature occupancy is_weekend : float) : float :=
  (200 + 5 * temperature + 2 * occupancy + 20 * is_weekend
   + 10 * sin (2 * math_pi * (hour - 12) / 24))%float.

(** The hour component before the sine: [2*pi*(hour-12)/24]. *)
Definition hour_angle (h : float) : float :=
  (2 * math_pi * (h - 12) / 24)%float.

Ltac hour_cases hour :=
  destruct hour as [|p|p]; [ | | lia ];
  [ | do 5 (try destruct p as [p|p|]); try lia ].

(** The ceiling as the specification writes it:
    [max(current - clamp(0.15 * max(current, 0), 10, 60), 0)]. *)
Definition clamp (x lo hi : float) : float :=
  if (x <? lo)%float then lo else if (hi <? x)%float then hi else x.

Definition spec_ceiling (current_power_kW : float) : float :=
  let buffer := clamp (0.15 * py_max current_power_kW 0) 10 60 in
  py_max (current_power_kW - buffer) 0.

(** The power draw a reader of [GET /current_status] finds in the store,
    zero when there is none: what [fetch_sensor] makes of the response. *)
Definition current_power_kW {rt : Runtime} (app : App) : float :=
  snd (fetch_sensor (HttpResponse (Ok tt) (Ok (body (current_status app))))).

(** The service with no model artifact, drawing 300 kW, and a request whose
    rule-based prediction is 500 kW. *)
Definition app_300kW : App :=
  {| trained_model := None;
     model_type := "rule-based";
     sensor_data := PyDict [("occupancy", PyInt 50);
                            ("power_kW", PyFloat 300);
                            ("temperature", PyFloat 40);
                            ("timestamp", PyStr "2025-07-09T12:00:00")]%string;
     weather_service := new_WeatherService None "Darbhanga" |}.

Definition request_500kW : pyval :=
  PyDict [("hour", PyInt 12); ("temperature", PyFloat 40);
          ("occupancy", PyInt 50); ("is_weekend", PyInt 0)]%string.

(** A service with a key, and the same service once it has cached 18.5
    degrees at second 1000. *)
Definition keyed_service : WeatherService :=
  new_WeatherService (Some "k3y"%string) "Darbhanga".

Definition warm_service : WeatherService :=
  store_cache keyed_service (PyFloat 18.5) 1000.

(** A provider that answers [{"main": {"temp": temp}}], and one that is
    unreachable. *)
Definition provider_says (temp : pyval) : Request -> http_result :=
  fun _ => HttpResponse (Ok tt)
             (Ok (PyDict [("main", PyDict [("temp", temp)])]))%string.

Definition provider_down : Request -> http_result :=
  fun _ => ConnectionFailed (RequestException "timed out").

(** The four fields every answer of [get_weather_info] carries. *)
Definition reading_fields (v : pyval) : bool :=
  match v with
  | PyDict kv =>
      match assoc "temperature" kv, assoc "description" kv,
            assoc "city" kv, assoc "error" kv with
      | Some _, Some _, Some _, Some _ => true
      | _, _, _, _ => false
      end
  | _ => false
  end.

Definition float_value (v : pyval) : bool :=
  match v with PyFloat _ => true | _ => false end.

Definition int_value (v : pyval) : bool :=
  match v with PyInt _ => true | _ => false end.

Definition str_value (v : pyval) : bool :=
  match v with PyStr _ => true | _ => false end.

(** An optional field: absent, null, or of its type. *)
Definition optional (p : pyval -> bool) (field : option pyval) : bool :=
  match field with
  | None | Some PyNone => true
  | Some v => p v
  end.

(** A reading as the specification types it: a float temperature, a string
    description, a string city, and optionally an int humidity, a float
    [feels_like] and a string error. *)
Definition is_reading (v : pyval) : bool :=
  match v with
  | PyDict kv =>
      match assoc "temperature" kv, assoc "description" kv,
            assoc "city" kv with
      | Some (PyFloat _), Some (PyStr _), Some (PyStr _) =>
          optional int_value (assoc "humidity" kv)
          && optional float_value (assoc "feels_like" kv)
          && optional str_value (assoc "error" kv)
      | _, _, _ => false
      end
  | _ => false
  end.

(** A provider that answers status 200 with the JSON body [data]. *)
Definition provider_answers (data : pyval) : Request -> http_result :=
  fun _ => HttpResponse (Ok tt) (Ok data).

(** The reading of the [except] branch. *)
Definition unknown_reading {rt : Runtime} (self : WeatherService) (e : exn)
  : pyval :=
  PyDict [("temperature", PyFloat 22);
          ("description", PyStr "Unknown");
          ("city", PyStr (city self));
          ("error", PyStr (str_of_exn e))]%string.

(** ** backend/app.py: the model chosen at start-up *)

(** The files the start-up code looks at: whether a path exists and what
    [joblib.load] makes of it, the object pickled there ([None], or
    something [predict] will call) or an exception. *)
Record FileSystem : Type := {
  path_exists : string -> bool;
  joblib_load : string -> result (option Model)
}.

(** The loop over the candidate artifacts: the first one that exists and
    loads is kept, whatever it holds, with its name; without any, no model
    and ["rule-based"]. *)
Fixpoint load_trained_model (fs : FileSystem)
  (candidates : list (string * string)) : option Model * string :=
  match candidates with
  | [] => (None, "rule-based"%string)
  | (model_path, model_name) :: rest =>
      if path_exists fs model_path then
        match joblib_load fs model_path with
        | Ok loaded => (loaded, model_name)
        | Raise _ => load_trained_model fs rest
        end
      else load_trained_model fs rest
  end.

Definition MODEL_PATH : string := "models/rf_model.pkl".
Definition REAL_MODEL_PATH : string := "models/real_rf_model.pkl".

(** The state of the service when the module has been imported; [key] is
    what [OWM_API_KEY] holds. *)
Definition startup (fs : FileSystem) (key : option string) : App :=
  let '(model, name) :=
    load_trained_model fs [(REAL_MODEL_PATH, "real"); (MODEL_PATH, "synthetic")]%string in
  {| trained_model := model;
     model_type := name;
     sensor_data := initial_sensor_data;
     weather_service := new_WeatherService key "Darbhanga" |}.

(** ** The service as its HTTP clients see it

    What [requests] makes of the answer of a view function: an error status
    makes [raise_for_status] raise, the JSON body is read back as it was
    written, and the page Flask sends for an uncaught exception is not
    JSON. *)
Definition http_of (r : result Response) : http_result :=
  match r with
  | Ok resp =>
      HttpResponse
        (if (400 <=? status resp) && (status resp <? 600)
         then Raise (RequestException "HTTPError") else Ok tt)
        (Ok (body resp))
  | Raise _ =>
      HttpResponse (Raise (RequestException "HTTPError")) (Raise ValueError)
  end.

(** Whether [requests] can encode a payload given as [json=]: it encodes
    with [allow_nan=False], which refuses NaN and the infinities wherever
    they stand. *)
Fixpoint json_compliant (v : pyval) : bool :=
  match v with
  | PyFloat f => negb (is_nan f || is_infinity f)
  | PyList l => forallb json_compliant l
  | PyDict kv => forallb (fun item => json_compliant (snd item)) kv
  | _ => true
  end.

(** [requests.post(".../predict", json=payload)] against the service: a
    payload that cannot be encoded raises [InvalidJSONError], a
    [RequestException], before anything is sent. *)
Definition post_predict {rt : Runtime} (app : App) (env : Env)
  (payload : pyval) : http_result :=
  if json_compliant payload then
    http_of (fst (fst (predict app env payload)))
  else ConnectionFailed (RequestException "InvalidJSONError").

(** The model call of [predict]: the output of the artifact on the feature
    row, or of the rule when there is no artifact. *)
Definition raw_prediction {rt : Runtime} (app : App)
  (hour temperature occupancy is_weekend : pyval) : result float :=
  match trained_model app with
  | Some model =>
      bind (py_int is_weekend)
        (fun w => model [hour; temperature; occupancy;
                         PyInt (if negb (w =? 0) then 1 else 0)])
  | None => rule_based_predict hour temperature occupancy is_weekend
  end.

(** The answer of [predict] to a request it can serve. *)
Definition prediction_response (app : App) (raw temperature : float)
  : Response :=
  {| status := 200;
     body := PyDict [("predicted_usage_kW", PyFloat (py_round raw 2));
                     ("model_type", PyStr (model_type app));
                     ("temperature_used", PyFloat (py_round temperature 1))]%string |}.

(** The routes of the service, each with the JSON body of the request. *)
Inductive Call : Type :=
| PostPredict (data : pyval)
| PostSensorUpdate (data : pyval)
| GetCurrentStatus
| GetWeather
| PostSetCity (data : pyval).

(** One request served: the answer, the service afterwards and the requests
    sent to the provider. *)
Definition serve {rt : Runtime} (app : App) (env : Env) (c : Call)
  : Response * App * list Request :=
  match c with
  | PostPredict data =>
      let '(r, app', sent) := predict app env data in
      (flask_response r, app', sent)
  | PostSensorUpdate data =>
      let '(resp, app') := sensor_update app data in (resp, app', [])
  | GetCurrentStatus => (current_status app, app, [])
  | GetWeather =>
      let '(resp, sent) := get_weather app env in (resp, app, sent)
  | PostSetCity data =>
      let '(r, app') := set_city app data in (flask_response r, app', [])
  end.

(** A sequence of requests, each with the clock and the provider of its
    moment: the service at the end. *)
Fixpoint serve_all {rt : Runtime} (app : App) (calls : list (Env * Call))
  : App :=
  match calls with
  | [] => app
  | (env, c) :: rest => serve_all (snd (fst (serve app env c))) rest
  end.

(** The body of the last [POST /sensor_update] of a sequence, [snapshot]
    when there is none. *)
Fixpoint last_snapshot (snapshot : pyval) (calls : list (Env * Call))
  : pyval :=
  match calls with
  | [] => snapshot
  | (_, PostSensorUpdate data) :: rest => last_snapshot data rest
  | _ :: rest => last_snapshot snapshot rest
  end.

(** ** sensor_feed.py *)

(** [get_backend_temperature], on the outcome of [GET /weather]. *)
Definition get_backend_temperature {rt : Runtime} (resp : http_result)
  : float :=
  match bind (match resp with
              | ConnectionFailed e => Raise e
              | HttpResponse st js => bind st (fun _ => js)
              end)
          (fun data =>
             bind (py_get data "temperature" (PyFloat 22)) py_float) with
  | Ok t => t
  | Raise _ => 22%float
  end.

(** The three calls of [random.randint] in one round of the loop, each
    given by what it returns for the bounds it is called with. *)
Record Draws : Type := {
  draw_base : Z -> Z -> Z;
  draw_noise : Z -> Z -> Z;
  draw_power : Z -> Z -> Z
}.

(** What [random.randint] promises: a value within its bounds. *)
Definition valid_draws (d : Draws) : Prop :=
  forall a b, a <= b ->
    a <= draw_base d a b <= b /\ a <= draw_noise d a b <= b
    /\ a <= draw_power d a b <= b.

Definition base_occupancy (current_hour : Z) (d : Draws) : Z :=
  if (6 <=? current_hour) && (current_hour <=? 23) then
    if (8 <=? current_hour) && (current_hour <=? 11) then
      120 + draw_base d (-30) 30
    else if (13 <=? current_hour) && (current_hour <=? 16) then
      100 + draw_base d (-25) 25
    else if (18 <=? current_hour) && (current_hour <=? 21) then
      160 + draw_base d (-40) 40
    else 60 + draw_base d (-20) 20
  else 0.

Definition occupancy_factor (current_temp : float) : float :=
  if ((current_temp <? 5) || (35 <? current_temp))%float then 0.7%float
  else if ((15 <=? current_temp) && (current_temp <=? 25))%float then 1.2%float
  else 1%float.

(** [max(0, int(base_occupancy * occupancy_factor + random.randint(-10, 10)))] *)
Definition feed_occupancy (current_temp : float) (current_hour : Z)
  (d : Draws) : result Z :=
  bind (float_of_int (base_occupancy current_hour d)) (fun b =>
  bind (float_of_int (draw_noise d (-10) 10)) (fun n =>
  bind (int_of_float (b * occupancy_factor current_temp + n)%float) (fun o =>
  Ok (Z.max 0 o)))).

(** [min(temp_deviation * 15, 200)] *)
Definition hvac_power (current_temp : float) : float :=
  py_min (abs (current_temp - 22) * 15)%float 200.

(** [power_kW] before it is kept within bounds. *)
Definition feed_power (current_temp : float) (occupancy : Z) (d : Draws)
  : result float :=
  bind (float_of_int occupancy) (fun o =>
  bind (float_of_int (draw_power d (-20) 20)) (fun r =>
  Ok (py_round (250 + hvac_power current_temp + o * 1.2 + r)%float 2))).

(** [max(200, min(800, power_kW))]: the bounds are ints, what lies between
    them stays a float. *)
Definition realistic_bounds (power_kW : float) : pyval :=
  if (power_kW <? 800)%float then
    if (200 <? power_kW)%float then PyFloat power_kW else PyInt 200
  else PyInt 800.

(** The snapshot one round of the loop posts to [/sensor_update]. *)
Definition feed_snapshot (current_temp : float) (current_hour : Z)
  (d : Draws) (timestamp : string) : result pyval :=
  bind (feed_occupancy current_temp current_hour d) (fun occupancy =>
  bind (feed_power current_temp occupancy d) (fun power_kW =>
  Ok (PyDict [("occupancy", PyInt occupancy);
              ("power_kW", realistic_bounds power_kW);
              ("temperature", PyFloat (py_round current_temp 1));
              ("timestamp", PyStr timestamp)]%string))).

(** The integers [lo, lo + 1, ..., lo + n - 1], and the checks run over
    them: on which occupancies and draws the conversions of the feed succeed
    and how many people it then counts. *)
Definition Z_range (lo : Z) (n : nat) : list Z :=
  map (fun i => lo + Z.of_nat i) (seq 0 n).

Definition counts_at_most (limit : Z) (factor : float) (base noise : Z)
  : bool :=
  match float_of_int base, float_of_int noise with
  | Ok b, Ok n =>
      match int_of_float (b * factor + n)%float with
      | Ok o => Z.max 0 o <=? limit
      | Raise _ => false
      end
  | _, _ => false
  end.

Definition converts (z : Z) : bool :=
  match float_of_int z with Ok _ => true | Raise _ => false end.

(** ** streamlit_app.py: occupancy profile, comfort factors and savings *)

(** [a / b] for two ints, [b] positive: the quotient rounded to the nearest
    double, [OverflowError] when that is infinite. *)
Definition int_truediv (a : Z) (b : positive) : result float :=
  match a with
  | Z0 => Ok 0%float
  | Zpos p =>
      match SFdiv prec emax (S754_finite false p 0) (S754_finite false b 0) with
      | S754_infinity _ => Raise OverflowError
      | sf => Ok (SF2Prim sf)
      end
  | Zneg p =>
      match SFdiv prec emax (S754_finite true p 0) (S754_finite false b 0) with
      | S754_infinity _ => Raise OverflowError
      | sf => Ok (SF2Prim sf)
      end
  end.

Definition occupancy_profile_0_1 {rt : Runtime} (hour_local : Z)
  (weekend : bool) : result float :=
  bind (int_truediv (hour_local - 8) 24) (fun q =>
  bind (math_sin (q * math_pi)%float) (fun s =>
  let base := (0.15 + 0.55 * py_max 0 s)%float in
  let weekend_factor := if weekend then 0.85%float else 1%float in
  Ok (py_max 0.05 (py_min 0.95 (base * weekend_factor)%float)))).

(** [min(max((temperature - ideal_temp) / 28, 0), 1)] with
    [ideal_temp = 22.0]; the ints 0 and 1 the builtins may return are read
    as doubles. *)
Definition temp_factor (temperature : float) : float :=
  py_min (py_max ((temperature - 22) / 28)%float 0) 1.

(** [savings_pct]: zero when there is no current usage. *)
Definition savings_pct (current_usage pred_usage : float) : float :=
  if truthy (PyFloat current_usage) then
    py_max 0 ((current_usage - pred_usage) / current_usage * 100)%float
  else 0%float.

(** [int((1 - occ_blend) * occupancy_raw + occ_blend * profile_occ)] *)
Definition blended_occupancy (occ_blend : float) (occupancy_raw profile_occ : Z)
  : result Z :=
  bind (float_of_int occupancy_raw) (fun raw =>
  bind (float_of_int profile_occ) (fun profile =>
  int_of_float ((1 - occ_blend) * raw + occ_blend * profile)%float)).

Definition blend_ends_ok (occupancy_raw profile_occ : Z) : bool :=
  match blended_occupancy 0 occupancy_raw profile_occ,
        blended_occupancy 1 occupancy_raw profile_occ with
  | Ok a, Ok b => (a =? occupancy_raw) && (b =? profile_occ)
  | _, _ => false
  end.

(** ** streamlit_app.py: the dashboard's own weather fetch *)

(** What [requests.get] returns to the dashboard: a status code and the
    outcome of [json()]. *)
Record Reply : Type := {
  status_code : Z;
  reply_json : result pyval
}.

(** [s.split(",", 1)] for a string that holds a comma: what stands before
    the first comma and what stands after it. *)
Fixpoint split_comma (s : string) : option (string * string) :=
  match s with
  | EmptyString => None
  | String c rest =>
      if Ascii.eqb c ","%char then Some (EmptyString, rest)
      else match split_comma rest with
           | Some (a, b) => Some (String c a, b)
           | None => None
           end
  end.

(** The latitude and longitude read from ["lat,lon"], when both parts are
    numbers. *)
Definition coordinates {rt : Runtime} (city_or_coords : string)
  : option (float * float) :=
  if str_in "," city_or_coords then
    match split_comma city_or_coords with
    | Some (a, b) =>
        match float_of_str (str_strip a), float_of_str (str_strip b) with
        | Some lat, Some lon => Some (lat, lon)
        | _, _ => None
        end
    | None => None
    end
  else None.

Definition weather_params {rt : Runtime} (api_key city_or_coords : string)
  : list (string * pyval) :=
  match coordinates city_or_coords with
  | Some (lat, lon) =>
      [("lat", PyFloat lat); ("lon", PyFloat lon);
       ("appid", PyStr api_key); ("units", PyStr "metric")]%string
  | None =>
      [("q", PyStr city_or_coords);
       ("appid", PyStr api_key); ("units", PyStr "metric")]%string
  end.

(** One run of the body of [fetch_weather]; [get] is what [requests.get]
    does with the parameters. *)
Definition fetch_weather {rt : Runtime} (api_key : option string)
  (get : list (string * pyval) -> result Reply) (city_or_coords : string)
  : result pyval :=
  match api_key with
  | None | Some EmptyString =>
      Ok (PyDict [("error", PyBool true);
                  ("msg", PyStr "OWM_API_KEY not set")]%string)
  | Some key =>
      bind (get (weather_params key city_or_coords)) (fun r =>
      bind (reply_json r) (fun d =>
      bind (if negb (status_code r =? 200) then Ok true
            else bind (py_contains "main" d) (fun has_main =>
                 if negb has_main then Ok true
                 else bind (py_contains "weather" d) (fun has_weather =>
                      Ok (negb has_weather)))) (fun failed =>
      if failed : bool then
        bind (py_get d "message" (PyStr "Unknown error")) (fun msg =>
        Ok (PyDict [("error", PyBool true); ("msg", msg)]%string))
      else
        bind (py_getitem d "main") (fun main =>
        bind (py_getitem main "temp") (fun temp =>
        bind (py_getitem d "weather") (fun weather =>
        bind (py_getitem0 weather) (fun first =>
        bind (py_getitem first "description") (fun description =>
        bind (py_title description) (fun desc =>
        bind (py_getitem d "weather") (fun weather_i =>
        bind (py_getitem0 weather_i) (fun first_i =>
        bind (py_getitem first_i "icon") (fun icon =>
        bind (py_get d "name" PyNone) (fun name =>
        Ok (PyDict [("error", PyBool false);
                    ("temp", temp);
                    ("desc", desc);
                    ("icon", icon);
                    ("city", py_or name (PyStr city_or_coords))]%string))))))))))))))
  end.

(** The weather the sidebar goes on with: the defaults when the fetch
    reports an error. *)
Definition sidebar_weather {rt : Runtime} (api_key : option string)
  (get : list (string * pyval) -> result Reply) (city_input : string)
  : result pyval :=
  bind (fetch_weather api_key get city_input) (fun weather =>
  bind (py_get weather "error" PyNone) (fun error =>
  if truthy error then
    Ok (PyDict [("temp", PyFloat 25); ("desc", PyStr "Clear");
                ("icon", PyStr "01d"); ("city", PyStr city_input)]%string)
  else Ok weather)).

(** ** setup_weather_api.py *)



(** ** Facts about doubles *)

Section Doubles.
Local Open Scope float_scope.

Lemma SFcompare_antisym (x y : spec_float) :
  SFcompare y x = option_map CompOpp (SFcompare x y).
Proof.
  destruct x as [sx|sx| |sx mx ex], y as [sy|sy| |sy my ey]; simpl;
    try reflexivity;
    try (destruct sx; reflexivity); try (destruct sy; reflexivity);
    try (destruct sx, sy; reflexivity).
  destruct sx, sy; simpl; try reflexivity;
    rewrite (Z.compare_antisym ey ex);
    destruct (ey ?= ex)%Z eqn:E; simpl; try reflexivity;
    rewrite (Pos.compare_cont_antisym mx my Eq); simpl;
    try rewrite CompOpp_involutive; reflexivity.
Qed.

Lemma SFcompare_defined (x y : spec_float) :
  x <> S754_nan -> y <> S754_nan -> exists c, SFcompare x y = Some c.
Proof.
  intros Hx Hy.
  destruct x, y; try congruence; simpl; eexists; reflexivity.
Qed.

Lemma SFcompare_refl (x : spec_float) :
  x <> S754_nan -> SFcompare x x = Some Eq.
Proof.
  intros Hx. destruct x as [s|s| |s m e]; try congruence; simpl;
    destruct s; try reflexivity;
    rewrite Z.compare_refl, Pos.compare_cont_refl; reflexivity.
Qed.

Lemma not_nan_spec (x : float) : is_nan x = false <-> Prim2SF x <> S754_nan.
Proof.
  unfold is_nan. rewrite FloatAxioms.eqb_spec. unfold SFeqb. split.
  - intros H E. rewrite E in H. discriminate.
  - intros H. rewrite (SFcompare_refl _ H). reflexivity.
Qed.

Lemma ltb_false_leb (a b : float) :
  is_nan a = false -> is_nan b = false ->
  (a <? b) = false -> (b <=? a) = true.
Proof.
  intros Ha Hb. rewrite FloatAxioms.ltb_spec, FloatAxioms.leb_spec.
  unfold SFltb, SFleb.
  rewrite (SFcompare_antisym (Prim2SF a) (Prim2SF b)).
  destruct (SFcompare_defined _ _ (proj1 (not_nan_spec _) Ha)
              (proj1 (not_nan_spec _) Hb)) as [c ->].
  destruct c; simpl; congruence.
Qed.

Lemma leb_refl (a : float) : is_nan a = false -> (a <=? a) = true.
Proof.
  intros Ha. rewrite FloatAxioms.leb_spec. unfold SFleb.
  rewrite (SFcompare_refl _ (proj1 (not_nan_spec _) Ha)). reflexivity.
Qed.

Lemma ltb_irrefl (a : float) : (a <? a) = false.
Proof.
  rewrite FloatAxioms.ltb_spec. unfold SFltb.
  pose proof (SFcompare_antisym (Prim2SF a) (Prim2SF a)) as H.
  destruct (SFcompare (Prim2SF a) (Prim2SF a)) as [[]|];
    simpl in *; congruence.
Qed.

(** Rounding to a double never produces NaN. *)

Lemma iter_pos_invariant {A : Type} (P : A -> Prop) (f : A -> A) :
  (forall x, P x -> P (f x)) -> forall n x, P x -> P (iter_pos f n x).
Proof.
  intros Hf n. induction n as [n IH|n IH|]; intros x Hx; simpl; auto.
Qed.

Lemma shr_1_nonneg (mrs : shr_record) :
  (0 <= shr_m mrs -> 0 <= shr_m (shr_1 mrs))%Z.
Proof.
  destruct mrs as [m r s]. simpl.
  destruct m as [|p|p]; [ | destruct p | ]; simpl; lia.
Qed.

Lemma shr_fexp_nonneg (m e : Z) (l : location) :
  (0 <= m -> 0 <= shr_m (fst (shr_fexp prec emax m e l)))%Z.
Proof.
  intros Hm. unfold shr_fexp, shr.
  assert (H0 : (0 <= shr_m (shr_record_of_loc m l))%Z)
    by (destruct l as [|[]]; exact Hm).
  destruct (fexp prec emax (Zdigits2 m + e) - e)%Z as [|p|p]; simpl; auto.
  apply (iter_pos_invariant (fun r => 0 <= shr_m r)%Z);
    auto using shr_1_nonneg.
Qed.

Lemma round_nearest_even_nonneg (m : Z) (l : location) :
  (0 <= m -> 0 <= round_nearest_even m l)%Z.
Proof.
  intros Hm. destruct l as [|[]]; simpl; try destruct (Z.even m); lia.
Qed.

Lemma binary_round_aux_not_nan (s : bool) (m e : Z) (l : location) :
  (0 <= m)%Z -> binary_round_aux prec emax s m e l <> S754_nan.
Proof.
  intros Hm. unfold binary_round_aux.
  pose proof (shr_fexp_nonneg m e l Hm) as H1.
  destruct (shr_fexp prec emax m e l) as [mrs' e']. simpl in H1.
  pose proof (shr_fexp_nonneg _ e' loc_Exact
                (round_nearest_even_nonneg _ (loc_of_shr_record mrs') H1))
    as H2.
  destruct (shr_fexp prec emax _ e' loc_Exact) as [mrs'' e'']. simpl in H2.
  destruct (shr_m mrs'') as [|p|p]; try discriminate; try lia.
  destruct (e'' <=? emax - prec)%Z; discriminate.
Qed.

Lemma binary_normalize_not_nan (m e : Z) (szero : bool) :
  binary_normalize prec emax m e szero <> S754_nan.
Proof.
  unfold binary_normalize, binary_round.
  destruct m as [|p|p]; try discriminate;
    destruct (shl_align _ _ _) as [mz ez];
    apply binary_round_aux_not_nan; lia.
Qed.

Lemma SFsub_not_nan (x y : spec_float) :
  x <> S754_nan -> SFfinite y = true -> SFsub prec emax x y <> S754_nan.
Proof.
  intros Hx Hy.
  destruct x as [sx|sx| |sx mx ex], y as [sy|sy| |sy my ey];
    try discriminate; try congruence; simpl.
  - destruct sx, sy; discriminate.
  - apply binary_normalize_not_nan.
Qed.

(** A double strictly between two finite doubles is finite. *)
Lemma between_finite (lo hi x : float) :
  SFfinite (Prim2SF lo) = true -> SFfinite (Prim2SF hi) = true ->
  (lo <? x) = true -> (x <? hi) = true -> SFfinite (Prim2SF x) = true.
Proof.
  rewrite !FloatAxioms.ltb_spec. unfold SFltb.
  destruct (Prim2SF lo) as [sl|sl| |sl ml el]; try discriminate;
    destruct (Prim2SF hi) as [sh|sh| |sh mh eh]; try discriminate;
    destruct (Prim2SF x) as [s|s| |s m e]; simpl; try reflexivity;
    intros _ _; try discriminate; destruct s; discriminate.
Qed.
End Doubles.

(** ** The rule-based predictor *)

Section PredictorFacts.
Context {rt : Runtime}.

(** [float(hour)] succeeds on the hours of a day and the sine is then
    taken at a finite angle. *)
Lemma hour_float (hour : Z) :
  0 <= hour <= 23 ->
  exists h, float_of_int hour = Ok h /\ is_infinity (hour_angle h) = false.
Proof.
  intros Hh. hour_cases hour;
    (eexists; split; [ vm_compute; reflexivity | vm_compute; reflexivity ]).
Qed.

(** The sum the predictor returns, with the integers already converted. *)
Lemma rule_based_predict_sum (hour occupancy w : Z) (temperature h o : float) :
  float_of_int hour = Ok h -> is_infinity (hour_angle h) = false ->
  float_of_int occupancy = Ok o ->
  rule_based_predict (PyInt hour) (PyFloat temperature) (PyInt occupancy)
    (PyInt w)
  = Ok (200 + 5 * temperature + 2 * o
        + 20 * (if negb (w =? 0)%Z then 1 else 0)
        + 10 * sin (hour_angle h))%float.
Proof.
  intros Hh Hfin Ho. unfold rule_based_predict, math_sin.
  cbn [py_float py_int bind]. rewrite Ho, Hh. cbn [bind].
  fold (hour_angle h). rewrite Hfin. reflexivity.
Qed.

(** At noon the hour component is [10.0 * 0.0]. *)
Lemma rule_based_predict_noon (occupancy w : Z) (temperature o : float) :
  float_of_int occupancy = Ok o ->
  rule_based_predict (PyInt 12) (PyFloat temperature) (PyInt occupancy)
    (PyInt w)
  = Ok (200 + 5 * temperature + 2 * o
        + 20 * (if negb (w =? 0)%Z then 1 else 0) + 10 * 0)%float.
Proof.
  intros Ho.
  rewrite (rule_based_predict_sum 12 occupancy w temperature 12 o
             eq_refl eq_refl Ho).
  change (hour_angle 12) with 0%float. rewrite sin_zero. reflexivity.
Qed.

(** The call [rule_based_predict(12, 0, 0, False)]. *)
Lemma rule_based_predict_baseline :
  rule_based_predict (PyInt 12) (PyInt 0) (PyInt 0) (PyBool false)
  = Ok 200%float.
Proof.
  unfold rule_based_predict. cbn [py_float py_int bind].
  change (float_of_int 0) with (Ok 0%float).
  change (float_of_int 12) with (Ok 12%float). cbn [bind].
  unfold math_sin. change (2 * math_pi * (12 - 12) / 24)%float with 0%float.
  change (is_infinity 0) with false. cbv iota. cbn [bind].
  rewrite sin_zero. reflexivity.
Qed.

(** A JSON [true]/[false] for [is_weekend] is read as 1/0. *)
Lemma rule_based_predict_bool (hour temperature occupancy : pyval) (b : bool) :
  rule_based_predict hour temperature occupancy (PyBool b)
  = rule_based_predict hour temperature occupancy (PyInt (Z.b2z b)).
Proof. reflexivity. Qed.
End PredictorFacts.

(** C3: whenever [float] can represent the hour and the occupancy and the
    angle stays finite, as it does on every hour of the day, the rule-based
    predictor returns exactly the double
    [200.0 + 5.0*temperature + 2.0*occupancy + 20.0*is_weekend
     + 10.0*sin(2*pi*(hour-12)/24)]; and [predict(12, 0, 0, false)] is exactly
    [200.0]. *)
Theorem rule_based_predict_formula :
  forall (rt : Runtime),
    (forall (hour occupancy : Z) (temperature h o : float) (is_weekend : bool),
        float_of_int hour = Ok h -> float_of_int occupancy = Ok o ->
        is_infinity (hour_angle h) = false ->
        rule_based_predict (PyInt hour) (PyFloat temperature)
          (PyInt occupancy) (PyInt (Z.b2z is_weekend))
        = Ok (usage_formula h temperature o (if is_weekend then 1 else 0)))
    /\ (forall hour : Z,
           0 <= hour <= 23 ->
           exists h,
             float_of_int hour = Ok h /\ is_infinity (hour_angle h) = false)
    /\ rule_based_predict (PyInt 12) (PyInt 0) (PyInt 0) (PyBool false)
       = Ok 200%float.
Proof.
  intros rt. split; [ | split ].
  - intros hour occupancy temperature h o is_weekend Eh Ho Hfin.
    rewrite (rule_based_predict_sum _ _ _ temperature _ _ Eh Hfin Ho).
    unfold usage_formula, hour_angle. destruct is_weekend; reflexivity.
  - apply hour_float.
  - apply rule_based_predict_baseline.
Qed.

(** C3, at 14 h, 25 degrees and 150 people on a weekday. *)
Lemma rule_based_predict_formula_witness :
  @rule_based_predict sample_runtime (PyInt 14) (PyFloat 25) (PyInt 150)
    (PyInt 0)
  = Ok (@usage_formula sample_runtime 14 25 150 0).
Proof.
  apply (proj1 (rule_based_predict_formula sample_runtime)
           14 150 25%float 14%float 150%float false); reflexivity.
Defined.

(** C4, as stated, fails on doubles: at noon, 8.12 degrees and nobody in the
    store the weekend output is 260.60000000000002, the weekday output
    240.59999999999999, and their difference is 20.000000000000028. *)
Lemma weekend_uplift_not_exact :
  exists hi lo : float,
    (forall rt : Runtime,
        rule_based_predict (PyInt 12) (PyFloat 8.12) (PyInt 0) (PyInt 1) = Ok hi
        /\ rule_based_predict (PyInt 12) (PyFloat 8.12) (PyInt 0) (PyInt 0)
           = Ok lo)
    /\ (hi - lo)%float = 0x1.4000000000008p+4%float
    /\ (hi - lo =? 20)%float = false.
Proof.
  exists (200 + 5 * 8.12 + 2 * 0 + 20 * 1 + 10 * 0)%float,
         (200 + 5 * 8.12 + 2 * 0 + 20 * 0 + 10 * 0)%float.
  split; [ | split; reflexivity ].
  intros rt. split.
  - exact (rule_based_predict_noon 0 1 8.12%float 0%float eq_refl).
  - exact (rule_based_predict_noon 0 0 8.12%float 0%float eq_refl).
Qed.

(** C4, amended: the weekend and the weekday output are the same
    left-to-right sum of doubles but for the weekend term, exactly [20.0]
    against exactly [0.0]; each addition rounds, so the two outputs differ by
    20 up to rounding.  At noon, zero degrees and an empty store they are
    exactly 220.0 and 200.0. *)
Theorem weekend_term_is_twenty :
  forall (rt : Runtime),
    (forall (hour occupancy : Z) (temperature h o : float),
        float_of_int hour = Ok h -> float_of_int occupancy = Ok o ->
        is_infinity (hour_angle h) = false ->
        let s := (200 + 5 * temperature + 2 * o)%float in
        let c := (10 * sin (hour_angle h))%float in
        rule_based_predict (PyInt hour) (PyFloat temperature)
          (PyInt occupancy) (PyInt (Z.b2z true)) = Ok (s + 20 + c)%float
        /\ rule_based_predict (PyInt hour) (PyFloat temperature)
             (PyInt occupancy) (PyInt (Z.b2z false)) = Ok (s + 0 + c)%float)
    /\ rule_based_predict (PyInt 12) (PyFloat 0) (PyInt 0) (PyInt (Z.b2z true))
       = Ok 220%float
    /\ rule_based_predict (PyInt 12) (PyFloat 0) (PyInt 0) (PyInt (Z.b2z false))
       = Ok 200%float.
Proof.
  intros rt. split; [ | split ].
  - intros hour occupancy temperature h o Eh Ho Hfin.
    split; rewrite (rule_based_predict_sum _ _ _ temperature _ _ Eh Hfin Ho);
      reflexivity.
  - rewrite (rule_based_predict_noon 0 _ 0 0 eq_refl). reflexivity.
  - rewrite (rule_based_predict_noon 0 _ 0 0 eq_refl). reflexivity.
Qed.

(** C4 amended, at 14 h, 25 degrees and 150 people. *)
Lemma weekend_term_is_twenty_witness :
  let s := (200 + 5 * 25 + 2 * 150)%float in
  let c := (10 * taylor_sin (hour_angle 14))%float in
  @rule_based_predict sample_runtime (PyInt 14) (PyFloat 25) (PyInt 150)
    (PyInt 1) = Ok (s + 20 + c)%float
  /\ @rule_based_predict sample_runtime (PyInt 14) (PyFloat 25) (PyInt 150)
       (PyInt 0) = Ok (s + 0 + c)%float.
Proof.
  apply (proj1 (weekend_term_is_twenty sample_runtime)
           14 150 25%float 14%float 150%float); reflexivity.
Defined.

(** When anything in the [try] block fails, the dashboard's prediction is
    the rule's, tagged ["fallback"]. *)
Lemma get_backend_prediction_fallback {rt : Runtime}
  (post : pyval -> http_result) (hour temperature occupancy is_weekend : pyval)
  (e : exn) :
  backend_prediction post hour temperature occupancy is_weekend = Raise e ->
  get_backend_prediction post hour temperature occupancy is_weekend
  = bind (fallback_rule hour temperature occupancy is_weekend)
         (fun pred => Ok (pred, PyStr "fallback", temperature)).
Proof.
  intros H. unfold get_backend_prediction. rewrite H. reflexivity.
Qed.

(** C9: the rule in the [except] branch of the dashboard's
    [get_backend_prediction] is the backend's [rule_based_predict]: the same
    conversions and the same operations on doubles, in the same order, so
    the same double on every input and the same exception when there is
    one.  Whenever the [try] block fails, whatever [requests.post] did, what
    [get_backend_prediction] returns is the value [rule_based_predict] has
    on the same four arguments, with the tag ["fallback"] and the
    temperature it was given; and where [rule_based_predict] raises, it
    raises the same exception. *)
Theorem fallback_rule_is_rule_based_predict :
  forall (rt : Runtime) (post : pyval -> http_result)
         (hour temperature occupancy is_weekend : pyval),
    fallback_rule hour temperature occupancy is_weekend
    = rule_based_predict hour temperature occupancy is_weekend
    /\ (forall e,
           backend_prediction post hour temperature occupancy is_weekend
           = Raise e ->
           (forall pred,
               rule_based_predict hour temperature occupancy is_weekend
               = Ok pred ->
               get_backend_prediction post hour temperature occupancy
                 is_weekend
               = Ok (pred, PyStr "fallback", temperature))
           /\ (forall e',
                  rule_based_predict hour temperature occupancy is_weekend
                  = Raise e' ->
                  get_backend_prediction post hour temperature occupancy
                    is_weekend
                  = Raise e')).
Proof.
  intros rt post hour temperature occupancy is_weekend.
  assert (Hsame : fallback_rule hour temperature occupancy is_weekend
                  = rule_based_predict hour temperature occupancy is_weekend)
    by reflexivity.
  split; [ exact Hsame | ].
  intros e He.
  rewrite (get_backend_prediction_fallback post hour temperature occupancy
             is_weekend e He), Hsame.
  split.
  - intros pred Hp. rewrite Hp. reflexivity.
  - intros e' Hp. rewrite Hp. reflexivity.
Qed.

(** C9, on a weekend noon at 0 degrees in an empty store, with the service
    answering 503: the dashboard shows the backend rule's 220 kW. *)
Lemma fallback_rule_is_rule_based_predict_witness :
  let post := fun _ : pyval =>
    HttpResponse (Raise (RequestException "503 Server Error"))
                 (Raise ValueError) in
  @rule_based_predict sample_runtime (PyInt 12) (PyFloat 0) (PyInt 0) (PyInt 1)
  = Ok 220%float
  /\ @get_backend_prediction sample_runtime post
       (PyInt 12) (PyFloat 0) (PyInt 0) (PyInt 1)
     = Ok (220%float, PyStr "fallback", PyFloat 0).
Proof.
  cbv zeta. split; [ reflexivity | ].
  apply (proj1 (proj2 (fallback_rule_is_rule_based_predict sample_runtime
                         (fun _ => HttpResponse
                                     (Raise (RequestException "503 Server Error"))
                                     (Raise ValueError))
                         (PyInt 12) (PyFloat 0) (PyInt 0) (PyInt 1))
                  (RequestException "503 Server Error") eq_refl));
    reflexivity.
Defined.

(** ** The safety cap *)

Section CapFacts.
Local Open Scope float_scope.

Lemma buffer_kW_finite (current_usage : float) :
  SFfinite (Prim2SF (buffer_kW current_usage)) = true.
Proof.
  unfold buffer_kW, py_min.
  set (r := py_round (0.15 * py_max current_usage 0) 1).
  destruct (r <? 60) eqn:E1.
  - unfold py_max. destruct (10 <? r) eqn:E2.
    + apply (between_finite 10 60 r); auto.
    + reflexivity.
  - reflexivity.
Qed.

Lemma max_allowed_not_nan (current_usage : float) :
  is_nan current_usage = false -> is_nan (max_allowed current_usage) = false.
Proof.
  intros H. unfold max_allowed, py_max.
  assert (D : is_nan (current_usage - buffer_kW current_usage) = false).
  { apply not_nan_spec. rewrite FloatAxioms.sub_spec.
    apply SFsub_not_nan.
    - apply not_nan_spec, H.
    - apply buffer_kW_finite. }
  destruct (_ <? 0); [ reflexivity | exact D ].
Qed.

Lemma capped_pred_usage_le (current_usage pred_usage : float) :
  is_nan current_usage = false -> is_nan pred_usage = false ->
  (capped_pred_usage current_usage pred_usage <=? max_allowed current_usage)
  = true.
Proof.
  intros Hc Hp. pose proof (max_allowed_not_nan _ Hc) as Hm.
  unfold capped_pred_usage.
  destruct (max_allowed current_usage <? pred_usage) eqn:E.
  - apply leb_refl, Hm.
  - apply ltb_false_leb; assumption.
Qed.
End CapFacts.

Section ServiceFacts.
Context {rt : Runtime}.

(** [POST /predict] neither reads nor writes the sensor store. *)
Lemma predict_ignores_sensor_data (app : App) (env : Env) (data s : pyval) :
  predict (with_sensor_data app s) env data
  = let '(r, app', sent) := predict app env data in
    (r, with_sensor_data app' s, sent).
Proof.
  unfold predict.
  destruct (predict_fields data) as [[[[h t] o] w]|e]; [ | reflexivity ].
  destruct t; try reflexivity.
  cbn [weather_service with_sensor_data].
  destruct (get_current_temperature (weather_service app) env)
    as [[v ws] sent].
  reflexivity.
Qed.

(** With the temperature given, the answer is the output of the model or
    of the rule, rounded to two decimals, and the service is untouched. *)
Lemma predict_returns_rounded_output (app : App) (env : Env)
  (hour occupancy is_weekend : pyval) (t raw : float) :
  match trained_model app with
  | Some model =>
      bind (py_int is_weekend)
        (fun w => model [hour; PyFloat t; occupancy;
                         PyInt (if negb (w =? 0) then 1 else 0)])
  | None => rule_based_predict hour (PyFloat t) occupancy is_weekend
  end = Ok raw ->
  predict app env
    (PyDict [("hour", hour); ("temperature", PyFloat t);
             ("occupancy", occupancy); ("is_weekend", is_weekend)]%string)
  = (Ok {| status := 200;
           body := PyDict [("predicted_usage_kW", PyFloat (py_round raw 2));
                           ("model_type", PyStr (model_type app));
                           ("temperature_used", PyFloat (py_round t 1))]%string |},
     app, []).
Proof.
  intros H. unfold predict.
  change (predict_fields _) with (Ok (hour, PyFloat t, occupancy, is_weekend)).
  cbn [py_float bind]. unfold predict_response.
  destruct (trained_model app) as [model|]; rewrite H; reflexivity.
Qed.

Lemma predict_request_500kW (env : Env) :
  predict app_300kW env request_500kW
  = (Ok {| status := 200;
           body := PyDict [("predicted_usage_kW", PyFloat 500);
                           ("model_type", PyStr "rule-based");
                           ("temperature_used", PyFloat 40)]%string |},
     app_300kW, []).
Proof.
  unfold predict.
  change (predict_fields request_500kW)
    with (Ok (PyInt 12, PyFloat 40, PyInt 50, PyInt 0)).
  cbn [py_float bind]. unfold predict_response.
  cbn [trained_model app_300kW].
  rewrite (rule_based_predict_noon 50 0 40 50 eq_refl).
  reflexivity.
Qed.
End ServiceFacts.

(** C1, as stated, fails on the service: with 300 kW in the sensor store the
    ceiling is 255 kW, and [POST /predict] answers 500 kW. *)
Lemma predict_exceeds_ceiling :
  (forall rt : Runtime, current_power_kW app_300kW = 300%float)
  /\ spec_ceiling 300 = 255%float
  /\ (forall (rt : Runtime) (env : Env),
         predict app_300kW env request_500kW
         = (Ok {| status := 200;
                  body := PyDict [("predicted_usage_kW", PyFloat 500);
                                  ("model_type", PyStr "rule-based");
                                  ("temperature_used", PyFloat 40)]%string |},
            app_300kW, []))
  /\ (500 <=? 255)%float = false.
Proof.
  split; [ intros rt; reflexivity | ].
  split; [ reflexivity | ].
  split; [ intros rt env; apply predict_request_500kW | reflexivity ].
Qed.

(** C1, amended: [POST /predict] answers the output of the model or of the
    rule rounded to two decimals and does not look at the sensor store; the
    cap is the dashboard's.  With
    [buffer_kW = max(10.0, min(60.0, round(0.15 * max(current_usage, 0.0), 1)))]
    and [max_allowed = max(current_usage - buffer_kW, 0.0)], the prediction
    the dashboard keeps is at most [max_allowed] for numbers that are not
    NaN, and is [max_allowed] whenever the prediction received exceeds it. *)
Theorem dashboard_caps_prediction :
  (forall (rt : Runtime) (app : App) (env : Env)
          (hour occupancy is_weekend : pyval) (t raw : float),
      match trained_model app with
      | Some model =>
          bind (py_int is_weekend)
            (fun w => model [hour; PyFloat t; occupancy;
                             PyInt (if negb (w =? 0) then 1 else 0)])
      | None => rule_based_predict hour (PyFloat t) occupancy is_weekend
      end = Ok raw ->
      predict app env
        (PyDict [("hour", hour); ("temperature", PyFloat t);
                 ("occupancy", occupancy); ("is_weekend", is_weekend)]%string)
      = (Ok {| status := 200;
               body := PyDict [("predicted_usage_kW", PyFloat (py_round raw 2));
                               ("model_type", PyStr (model_type app));
                               ("temperature_used", PyFloat (py_round t 1))]%string |},
         app, []))
  /\ (forall (rt : Runtime) (app : App) (env : Env) (data s : pyval),
         predict (with_sensor_data app s) env data
         = let '(r, app', sent) := predict app env data in
           (r, with_sensor_data app' s, sent))
  /\ (forall current_usage pred_usage : float,
         is_nan current_usage = false -> is_nan pred_usage = false ->
         (capped_pred_usage current_usage pred_usage
          <=? max_allowed current_usage)%float = true)
  /\ (forall current_usage pred_usage : float,
         (max_allowed current_usage <? pred_usage)%float = true ->
         capped_pred_usage current_usage pred_usage
         = max_allowed current_usage).
Proof.
  split; [ | split; [ | split ] ].
  - intros rt app env hour occupancy is_weekend t raw.
    apply predict_returns_rounded_output.
  - intros rt app env data s. apply predict_ignores_sensor_data.
  - apply capped_pred_usage_le.
  - intros current_usage pred_usage H. unfold capped_pred_usage.
    rewrite H. reflexivity.
Qed.

(** C1 amended, at 300 kW drawn and 500 kW predicted: the service answers
    500 kW and the dashboard keeps 255 kW. *)
Lemma dashboard_caps_prediction_witness :
  @predict sample_runtime app_300kW
    {| time_time := 1000; requests_get := provider_down |} request_500kW
  = (Ok {| status := 200;
           body := PyDict [("predicted_usage_kW", PyFloat 500);
                           ("model_type", PyStr "rule-based");
                           ("temperature_used", PyFloat 40)]%string |},
     app_300kW, [])
  /\ (capped_pred_usage 300 500 <=? max_allowed 300)%float = true
  /\ capped_pred_usage 300 500 = 255%float.
Proof.
  split; [ | split ].
  - exact (proj1 dashboard_caps_prediction sample_runtime app_300kW
             {| time_time := 1000; requests_get := provider_down |}
             (PyInt 12) (PyInt 50) (PyInt 0) 40%float 500%float eq_refl).
  - apply (proj1 (proj2 (proj2 dashboard_caps_prediction))
             300%float 500%float); reflexivity.
  - rewrite (proj2 (proj2 (proj2 dashboard_caps_prediction))
               300%float 500%float); reflexivity.
Defined.

(** The dashboard rounds the buffer to one decimal, so its ceiling is not the
    specification's: at 300.27 kW the buffer is 45.0 rather than 45.0405, and
    a prediction of 500 kW is kept at 255.27 kW, above 255.2295 kW. *)
Lemma dashboard_buffer_is_rounded :
  buffer_kW 300.27 = 45%float
  /\ (spec_ceiling 300.27 <? capped_pred_usage 300.27 500)%float = true.
Proof. split; reflexivity. Qed.

(** ** The temperature cache *)

(** A valid cache entry is returned as it is, with no request. *)
Lemma get_current_temperature_hit (self : WeatherService) (env : Env) :
  no_api_key self = false -> cache_valid self (time_time env) = true ->
  get_current_temperature self env = (_cached_data self, self, []).
Proof.
  intros Hk Hc. unfold get_current_temperature. rewrite Hk, Hc. reflexivity.
Qed.

(** Without a valid entry the call sends exactly one request. *)
Lemma get_current_temperature_miss (self : WeatherService) (env : Env) :
  no_api_key self = false -> cache_valid self (time_time env) = false ->
  snd (get_current_temperature self env) = [weather_request self 5].
Proof.
  intros Hk Hc. unfold get_current_temperature. rewrite Hk, Hc.
  destruct (read_temp env (weather_request self 5)) as [[t|]|e];
    try reflexivity.
  destruct (format_1f t); reflexivity.
Qed.

(** A fetch that raises, or whose body lacks the keys, gives the default and
    leaves the service as it was. *)
Lemma get_current_temperature_failed (self : WeatherService) (env : Env) :
  no_api_key self = false -> cache_valid self (time_time env) = false ->
  (forall t, read_temp env (weather_request self 5) <> Ok (Some t)) ->
  get_current_temperature self env
  = (PyFloat 22, self, [weather_request self 5]).
Proof.
  intros Hk Hc Hr. unfold get_current_temperature. rewrite Hk, Hc.
  destruct (read_temp env (weather_request self 5)) as [[t|]|e];
    try reflexivity.
  exfalso. apply (Hr t). reflexivity.
Qed.

(** A number found in the body is stored with the time of the call and
    returned. *)
Lemma get_current_temperature_fresh (self : WeatherService) (env : Env)
  (t : pyval) :
  no_api_key self = false -> cache_valid self (time_time env) = false ->
  read_temp env (weather_request self 5) = Ok (Some t) ->
  format_1f t = Ok tt ->
  get_current_temperature self env
  = (t, store_cache self t (time_time env), [weather_request self 5]).
Proof.
  intros Hk Hc Hr Hf. unfold get_current_temperature.
  rewrite Hk, Hc, Hr, Hf. reflexivity.
Qed.

(** C5, at the input where the code departs from it: the provider reports
    0.0 degrees at second 1000, which is cached; one second later, with the
    provider down, the second call does not return the cached 0.0 but sends
    a request and returns the default 22.0. *)
Theorem zero_degrees_not_served_from_cache :
  let env1 := {| time_time := 1000; requests_get := provider_says (PyFloat 0) |} in
  let env2 := {| time_time := 1001; requests_get := provider_down |} in
  let '(v1, self1, sent1) := get_current_temperature keyed_service env1 in
  let '(v2, self2, sent2) := get_current_temperature self1 env2 in
  v1 = PyFloat 0
  /\ _cached_data self1 = PyFloat 0 /\ _last_fetch self1 = 1000%float
  /\ (time_time env2 - _last_fetch self1 <? cache_timeout self1)%float = true
  /\ v2 = PyFloat 22
  /\ sent2 = [weather_request self1 5]
  /\ self2 = self1.
Proof. cbv zeta. repeat split; reflexivity. Qed.

(** C5, where the code agrees with it: 18.5 degrees fetched at second 1000
    are returned again at second 1299 without a request, and at second 1300
    the call sends exactly one request. *)
Lemma cached_temperature_reused_then_refreshed :
  let env1 := {| time_time := 1000; requests_get := provider_says (PyFloat 18.5) |} in
  let env2 := {| time_time := 1299; requests_get := provider_down |} in
  let env3 := {| time_time := 1300; requests_get := provider_says (PyFloat 19) |} in
  let '(v1, self1, sent1) := get_current_temperature keyed_service env1 in
  let '(v2, self2, sent2) := get_current_temperature self1 env2 in
  let '(v3, self3, sent3) := get_current_temperature self2 env3 in
  v1 = PyFloat 18.5 /\ v2 = PyFloat 18.5 /\ sent2 = []
  /\ v3 = PyFloat 19 /\ sent3 = [weather_request keyed_service 5].
Proof. cbv zeta. repeat split; reflexivity. Qed.

(** C10: with a key and a cached value of exactly 0.0 the cache test fails
    whatever the age of the entry, so the call sends one request; it returns
    the number the provider gives, and the default 22.0 when the fetch
    fails. *)
Theorem cached_zero_is_refetched :
  forall (self : WeatherService) (env : Env),
    no_api_key self = false -> _cached_data self = PyFloat 0 ->
    cache_valid self (time_time env) = false
    /\ snd (get_current_temperature self env) = [weather_request self 5]
    /\ (forall t, read_temp env (weather_request self 5) = Ok (Some t) ->
                  format_1f t = Ok tt ->
                  fst (fst (get_current_temperature self env)) = t)
    /\ ((forall t, read_temp env (weather_request self 5) <> Ok (Some t)) ->
        fst (fst (get_current_temperature self env)) = PyFloat 22).
Proof.
  intros self env Hk H0.
  assert (Hc : cache_valid self (time_time env) = false)
    by (unfold cache_valid; rewrite H0; reflexivity).
  split; [ exact Hc | ]. split; [ | split ].
  - apply get_current_temperature_miss; assumption.
  - intros t Hr Hf.
    rewrite (get_current_temperature_fresh self env t Hk Hc Hr Hf).
    reflexivity.
  - intros Hr.
    rewrite (get_current_temperature_failed self env Hk Hc Hr). reflexivity.
Qed.

(** C10, one second after 0.0 degrees were cached: the provider now says
    3.5 degrees and that is what the call returns. *)
Lemma cached_zero_is_refetched_witness :
  let self := store_cache keyed_service (PyFloat 0) 1000 in
  let env := {| time_time := 1001; requests_get := provider_says (PyFloat 3.5) |} in
  cache_valid self (time_time env) = false
  /\ snd (get_current_temperature self env) = [weather_request self 5]
  /\ fst (fst (get_current_temperature self env)) = PyFloat 3.5.
Proof.
  cbv zeta.
  destruct (cached_zero_is_refetched
              (store_cache keyed_service (PyFloat 0) 1000)
              {| time_time := 1001; requests_get := provider_says (PyFloat 3.5) |}
              eq_refl eq_refl) as (H1 & H2 & H3 & _).
  split; [ exact H1 | ]. split; [ exact H2 | ].
  apply H3; reflexivity.
Defined.

(** C6, at the input where the code departs from it: 18.5 degrees cached at
    second 1000 are stale at second 2000; the provider answers
    [{"main": {"temp": null}}]; the cache is written before the message that
    formats the temperature raises, so the call returns the default 22.0 and
    leaves [None] and second 2000 in the cache. *)
Theorem null_temperature_overwrites_cache :
  let env := {| time_time := 2000; requests_get := provider_says PyNone |} in
  let '(v, self', sent) := get_current_temperature warm_service env in
  cache_valid warm_service (time_time env) = false
  /\ format_1f PyNone = Raise TypeError
  /\ v = PyFloat 22
  /\ _cached_data warm_service = PyFloat 18.5 /\ _cached_data self' = PyNone
  /\ _last_fetch warm_service = 1000%float /\ _last_fetch self' = 2000%float.
Proof. cbv zeta. repeat split; reflexivity. Qed.

(** ** The full weather reading *)

Section ReadingFacts.
Context {rt : Runtime}.

Lemma read_weather_info_fields (self : WeatherService) (env : Env)
  (req : Request) (reading : pyval) :
  read_weather_info self env req = Ok reading ->
  reading_fields reading = true.
Proof.
  unfold read_weather_info. intros H.
  repeat match type of H with
         | bind ?c _ = Ok _ => destruct c; cbn [bind] in H; [ | discriminate ]
         end.
  injection H as <-. reflexivity.
Qed.

(** The failures of the fetch and a body without the expected fields all
    raise inside the [try] block. *)
Lemma read_weather_info_fetch_fails (self : WeatherService) (env : Env)
  (req : Request) (e : exn) :
  fetch_json env req = Raise e -> read_weather_info self env req = Raise e.
Proof. intros H. unfold read_weather_info. rewrite H. reflexivity. Qed.

Lemma read_weather_info_no_main (self : WeatherService) (env : Env)
  (req : Request) (kv : list (string * pyval)) :
  fetch_json env req = Ok (PyDict kv) -> assoc "main" kv = None ->
  read_weather_info self env req = Raise (KeyError "main").
Proof.
  intros H Hm. unfold read_weather_info. rewrite H. cbn [bind py_getitem].
  rewrite Hm. reflexivity.
Qed.

Lemma read_weather_info_no_temp (self : WeatherService) (env : Env)
  (req : Request) (kv m : list (string * pyval)) :
  fetch_json env req = Ok (PyDict kv) -> assoc "main" kv = Some (PyDict m) ->
  assoc "temp" m = None ->
  read_weather_info self env req = Raise (KeyError "temp").
Proof.
  intros H Hm Ht. unfold read_weather_info. rewrite H. cbn [bind py_getitem].
  rewrite Hm. cbn [bind py_getitem]. rewrite Ht. reflexivity.
Qed.

(** Without a usable first entry under ["weather"], something raises,
    whatever the rest of the body holds. *)
Lemma read_weather_info_no_description (self : WeatherService) (env : Env)
  (req : Request) (kv : list (string * pyval)) :
  fetch_json env req = Ok (PyDict kv) ->
  assoc "weather" kv = None \/ assoc "weather" kv = Some (PyList [])
  \/ (exists first rest,
         assoc "weather" kv = Some (PyList (PyDict first :: rest))
         /\ (assoc "description" first = None
             \/ exists v, assoc "description" first = Some v
                          /\ str_value v = false)) ->
  exists e, read_weather_info self env req = Raise e.
Proof.
  intros H Hw. unfold read_weather_info. rewrite H. cbn [bind].
  destruct (py_getitem (PyDict kv) "main") as [main|e];
    [ cbn [bind] | eexists; reflexivity ].
  destruct (py_getitem main "temp") as [temp|e];
    [ cbn [bind] | eexists; reflexivity ].
  cbn [py_getitem].
  destruct Hw as [-> | [-> | (first & rest & -> & Hd)]]; cbn [bind py_getitem0].
  - eexists; reflexivity.
  - eexists; reflexivity.
  - cbn [py_getitem].
    destruct Hd as [-> | (v & -> & Hv)]; cbn [bind].
    + eexists; reflexivity.
    + destruct v; try discriminate Hv; eexists; reflexivity.
Qed.

(** A body with the fields the code reads is passed on as it is. *)
Lemma read_weather_info_passes_on (self : WeatherService) (env : Env)
  (req : Request) (kv m first : list (string * pyval)) (rest : list pyval)
  (temp : pyval) (d : string) :
  fetch_json env req = Ok (PyDict kv) ->
  assoc "main" kv = Some (PyDict m) -> assoc "temp" m = Some temp ->
  assoc "weather" kv = Some (PyList (PyDict first :: rest)) ->
  assoc "description" first = Some (PyStr d) ->
  read_weather_info self env req
  = Ok (PyDict [("temperature", temp);
                ("description", PyStr (str_title d));
                ("city", match assoc "name" kv with
                         | Some name => name
                         | None => PyStr (city self)
                         end);
                ("humidity", match assoc "humidity" m with
                             | Some h => h
                             | None => PyInt 0
                             end);
                ("feels_like", match assoc "feels_like" m with
                               | Some f => f
                               | None => temp
                               end);
                ("error", PyNone)]%string).
Proof.
  intros H Hm Ht Hw Hd. unfold read_weather_info. rewrite H.
  repeat (rewrite ?Hm, ?Ht, ?Hw, ?Hd;
          cbn [bind py_getitem py_getitem0 py_get py_title]).
  reflexivity.
Qed.
End ReadingFacts.

(** C7, as stated, fails on a body whose temperature is null: the reading
    carries [None] as temperature and no error, where a malformed response
    should give 22.0, ["Unknown"] and an error message; it is not a reading
    as the specification types it. *)
Lemma null_temperature_is_passed_on :
  let data :=
    PyDict [("main", PyDict [("temp", PyNone)]);
            ("weather", PyList [PyDict [("description", PyStr "mist")]])]%string in
  let env := {| time_time := 1000; requests_get := provider_answers data |} in
  let reading := fst (@get_weather_info sample_runtime keyed_service env) in
  reading = PyDict [("temperature", PyNone);
                    ("description", PyStr "Mist");
                    ("city", PyStr "Darbhanga");
                    ("humidity", PyInt 0);
                    ("feels_like", PyNone);
                    ("error", PyNone)]%string
  /\ is_reading reading = false.
Proof. cbv zeta. split; reflexivity. Qed.

(** C7: [get_weather_info] never raises (the embedding is a total function
    that gives back no service: the method assigns nothing) and its answer
    always carries a temperature, a description, a city and an error field;
    the answer does not depend on the cache entry.  Without a key it is 22.0
    degrees, ["Clear"] and the error ["No API key"], with no request.  With
    a key, whatever raises in the [try] block gives 22.0 degrees,
    ["Unknown"] and the text of the exception as error, and the block
    raises when the fetch fails (network error, error status, body that is
    not JSON) and when the body lacks ["main"], ["temp"], ["weather"], a
    first weather entry or a description that is a string.  A body that has
    these fields is passed on as it is, with a null error: the reading is
    one as the specification types it when the provider's values have
    their types. *)
Theorem get_weather_info_never_raises :
  forall (rt : Runtime) (self : WeatherService) (env : Env),
    let req := weather_request self 5 in
    reading_fields (fst (get_weather_info self env)) = true
    /\ (forall (v : pyval) (t : float),
           get_weather_info (store_cache self v t) env
           = get_weather_info self env)
    /\ (no_api_key self = true ->
        get_weather_info self env
        = (PyDict [("temperature", PyFloat 22);
                   ("description", PyStr "Clear");
                   ("city", PyStr (city self));
                   ("error", PyStr "No API key")]%string, []))
    /\ (no_api_key self = false ->
        forall e, read_weather_info self env req = Raise e ->
                  get_weather_info self env = (unknown_reading self e, [req]))
    /\ (no_api_key self = false ->
        (exists e, fetch_json env req = Raise e)
        \/ (exists kv,
               fetch_json env req = Ok (PyDict kv)
               /\ (assoc "main" kv = None
                   \/ (exists m, assoc "main" kv = Some (PyDict m)
                                 /\ assoc "temp" m = None)
                   \/ assoc "weather" kv = None
                   \/ assoc "weather" kv = Some (PyList [])
                   \/ (exists first rest,
                          assoc "weather" kv
                          = Some (PyList (PyDict first :: rest))
                          /\ (assoc "description" first = None
                              \/ exists v,
                                   assoc "description" first = Some v
                                   /\ str_value v = false)))) ->
        exists e, get_weather_info self env = (unknown_reading self e, [req]))
    /\ (no_api_key self = false ->
        forall (kv m first : list (string * pyval)) (rest : list pyval)
               (temp : pyval) (d : string),
          fetch_json env req = Ok (PyDict kv) ->
          assoc "main" kv = Some (PyDict m) -> assoc "temp" m = Some temp ->
          assoc "weather" kv = Some (PyList (PyDict first :: rest)) ->
          assoc "description" first = Some (PyStr d) ->
          get_weather_info self env
          = (PyDict [("temperature", temp);
                     ("description", PyStr (str_title d));
                     ("city", match assoc "name" kv with
                              | Some name => name
                              | None => PyStr (city self)
                              end);
                     ("humidity", match assoc "humidity" m with
                                  | Some h => h
                                  | None => PyInt 0
                                  end);
                     ("feels_like", match assoc "feels_like" m with
                                    | Some f => f
                                    | None => temp
                                    end);
                     ("error", PyNone)]%string, [req])
          /\ (float_value temp = true ->
              assoc "name" kv = None
              \/ (exists name, assoc "name" kv = Some (PyStr name)) ->
              optional int_value (assoc "humidity" m) = true ->
              optional float_value (assoc "feels_like" m) = true ->
              is_reading (fst (get_weather_info self env)) = true)).
Proof.
  intros rt self env req.
  assert (Hraise : no_api_key self = false ->
            forall e, read_weather_info self env req = Raise e ->
                      get_weather_info self env
                      = (unknown_reading self e, [req])).
  { intros Hk e He. unfold get_weather_info. rewrite Hk. fold req.
    rewrite He. reflexivity. }
  refine (conj _ (conj _ (conj _ (conj Hraise (conj _ _))))).
  - unfold get_weather_info. destruct (no_api_key self); [ reflexivity | ].
    destruct (read_weather_info self env (weather_request self 5)) eqn:E.
    + exact (read_weather_info_fields _ _ _ _ E).
    + reflexivity.
  - intros v t. reflexivity.
  - intros Hk. unfold get_weather_info. rewrite Hk. reflexivity.
  - intros Hk [(e & He) | (kv & Hf & [Hm | [(m & Hm & Ht) | Hw]])].
    + exists e. apply (Hraise Hk), read_weather_info_fetch_fails, He.
    + eexists. apply (Hraise Hk), (read_weather_info_no_main _ _ _ kv Hf Hm).
    + eexists.
      apply (Hraise Hk), (read_weather_info_no_temp _ _ _ kv m Hf Hm Ht).
    + destruct (read_weather_info_no_description self env req kv Hf Hw)
        as (e & He).
      exists e. apply (Hraise Hk), He.
  - intros Hk kv m first rest temp d Hf Hm Ht Hw Hd.
    pose proof (read_weather_info_passes_on self env req kv m first rest
                  temp d Hf Hm Ht Hw Hd) as Hr.
    assert (Hg : get_weather_info self env
                 = (PyDict [("temperature", temp);
                            ("description", PyStr (str_title d));
                            ("city", match assoc "name" kv with
                                     | Some name => name
                                     | None => PyStr (city self)
                                     end);
                            ("humidity", match assoc "humidity" m with
                                         | Some h => h
                                         | None => PyInt 0
                                         end);
                            ("feels_like", match assoc "feels_like" m with
                                           | Some f => f
                                           | None => temp
                                           end);
                            ("error", PyNone)]%string, [req])).
    { unfold get_weather_info. rewrite Hk. fold req. rewrite Hr.
      reflexivity. }
    split; [ exact Hg | ].
    intros Htemp Hname Hhum Hfeels. rewrite Hg. cbn [fst].
    destruct temp; try discriminate Htemp.
    unfold is_reading. cbn [assoc String.eqb Ascii.eqb Bool.eqb].
    destruct Hname as [-> | (name & ->)];
      destruct (assoc "humidity" m) as [[]|]; try discriminate Hhum;
      destruct (assoc "feels_like" m) as [[]|]; try discriminate Hfeels;
      reflexivity.
Qed.

(** C7, with a key and the provider down. *)
Lemma get_weather_info_never_raises_witness :
  let env := {| time_time := 1000; requests_get := provider_down |} in
  @get_weather_info sample_runtime warm_service env
  = (PyDict [("temperature", PyFloat 22);
             ("description", PyStr "Unknown");
             ("city", PyStr "Darbhanga");
             ("error", PyStr "timed out")]%string,
     [weather_request warm_service 5]).
Proof.
  cbv zeta.
  apply (proj1 (proj2 (proj2 (proj2
           (get_weather_info_never_raises sample_runtime warm_service
              {| time_time := 1000; requests_get := provider_down |}))))
           eq_refl (RequestException "timed out")).
  reflexivity.
Defined.

(** A full body gives the provider's own values, with a null error. *)
Lemma get_weather_info_success :
  let data :=
    PyDict [("name", PyStr "Paris");
            ("main", PyDict [("temp", PyFloat 17.5); ("humidity", PyInt 60)]);
            ("weather", PyList [PyDict [("description", PyStr "light rain")]])]%string in
  let env := {| time_time := 1000; requests_get := provider_answers data |} in
  forall rt : Runtime,
    fst (get_weather_info keyed_service env)
    = PyDict [("temperature", PyFloat 17.5);
              ("description", PyStr "Light Rain");
              ("city", PyStr "Paris");
              ("humidity", PyInt 60);
              ("feels_like", PyFloat 17.5);
              ("error", PyNone)]%string.
Proof.
  intros data env rt.
  change (fst (get_weather_info keyed_service env))
    with (PyDict [("temperature", PyFloat 17.5);
                  ("description", PyStr (str_title "light rain"));
                  ("city", PyStr "Paris");
                  ("humidity", PyInt 60);
                  ("feels_like", PyFloat 17.5);
                  ("error", PyNone)]%string).
  rewrite (str_title_ascii "light rain" eq_refl). reflexivity.
Qed.

(** ** The configured city *)

(** C8: [POST /set_city] changes at most the held city: the cache entry, the
    key, the URL, the timeout, the sensor store and the model are as before,
    whatever the body.  A name that is not blank is answered 200 and the
    service then holds it, stripped; an empty, blank, null or missing city
    is answered 400 and the service is unchanged.  After the call a valid
    cache entry, fetched for the previous city, is still what
    [get_current_temperature] returns, with no request. *)
Theorem set_city_changes_only_city :
  forall (app : App) (json_body : pyval),
    let app' := snd (set_city app json_body) in
    (_cached_data (weather_service app') = _cached_data (weather_service app)
     /\ _last_fetch (weather_service app') = _last_fetch (weather_service app)
     /\ api_key (weather_service app') = api_key (weather_service app)
     /\ base_url (weather_service app') = base_url (weather_service app)
     /\ cache_timeout (weather_service app')
        = cache_timeout (weather_service app)
     /\ sensor_data app' = sensor_data app
     /\ trained_model app' = trained_model app
     /\ model_type app' = model_type app)
    /\ (forall kv c,
           json_body = PyDict kv -> assoc "city" kv = Some (PyStr c) ->
           str_strip c <> EmptyString ->
           fst (set_city app json_body)
           = Ok {| status := 200;
                   body := PyDict [("status", PyStr "ok");
                                   ("city", PyStr (str_strip c))]%string |}
           /\ city (weather_service app') = str_strip c)
    /\ (forall kv,
           json_body = PyNone
           \/ json_body = PyDict kv
              /\ (assoc "city" kv = None \/ assoc "city" kv = Some PyNone
                  \/ exists c, assoc "city" kv = Some (PyStr c)
                               /\ str_strip c = EmptyString) ->
           fst (set_city app json_body)
           = Ok {| status := 400;
                   body := PyDict [("error", PyStr "city is required")]%string |}
           /\ app' = app)
    /\ (forall env : Env,
           no_api_key (weather_service app) = false ->
           cache_valid (weather_service app) (time_time env) = true ->
           get_current_temperature (weather_service app') env
           = (_cached_data (weather_service app), weather_service app', [])).
Proof.
  intros app json_body app'.
  assert (Hshape : app' = app
                   \/ exists name,
                        app' = with_weather_service app
                                 (with_city (weather_service app) name)).
  { unfold app', set_city.
    destruct (bind _ _) as [name|e]; [ | left; reflexivity ].
    destruct (negb (truthy (PyStr name))); [ left; reflexivity | ].
    right. exists name. reflexivity. }
  assert (Hor : forall kv, exists kv',
               py_or (PyDict kv) (PyDict []) = PyDict kv'
               /\ assoc "city" kv' = assoc "city" kv).
  { intros kv.
    destruct kv; [ exists []; split; reflexivity | eexists; split; reflexivity ]. }
  refine (conj _ (conj _ (conj _ _))).
  - destruct Hshape as [-> | (name & ->)]; repeat split; destruct app; reflexivity.
  - intros kv c -> Hc Hs. unfold app', set_city.
    destruct (Hor kv) as (kv' & -> & Hkv). cbn [py_get bind]. rewrite Hkv, Hc.
    assert (Ht : truthy (PyStr c) = true).
    { cbn [truthy]. destruct c; [ exfalso; apply Hs; reflexivity | reflexivity ]. }
    unfold py_or. rewrite Ht. cbn [py_strip truthy].
    destruct (str_strip c); [ congruence | ]. split; reflexivity.
  - intros kv [-> | [-> H]]; [ split; reflexivity | ].
    unfold app', set_city.
    destruct (Hor kv) as (kv' & -> & Hkv). cbn [py_get bind]. rewrite Hkv.
    destruct H as [-> | [-> | (c & -> & Hs)]]; [ split; reflexivity .. | ].
    assert (Hc : py_strip (py_or (PyStr c) (PyStr "")) = Ok EmptyString).
    { unfold py_or. destruct (truthy (PyStr c)); cbn [py_strip];
        [ rewrite Hs | ]; reflexivity. }
    rewrite Hc. split; reflexivity.
  - intros env Hk Hc.
    destruct Hshape as [-> | (name & ->)].
    + exact (get_current_temperature_hit (weather_service app) env Hk Hc).
    + exact (get_current_temperature_hit
               (with_city (weather_service app) name) env Hk Hc).
Qed.

(** C8, on a service that cached 18.5 degrees for Darbhanga at second 1000:
    [{"city": " Paris "}] stores ["Paris"], and at second 1100 the
    temperature returned is still 18.5, with no request. *)
Lemma set_city_changes_only_city_witness :
  let app := {| trained_model := None; model_type := "rule-based";
                sensor_data := initial_sensor_data;
                weather_service := warm_service |} in
  let env := {| time_time := 1100; requests_get := provider_says (PyFloat 31) |} in
  let app' := snd (set_city app (PyDict [("city", PyStr " Paris ")]%string)) in
  city (weather_service app') = "Paris"%string
  /\ get_current_temperature (weather_service app') env
     = (PyFloat 18.5, weather_service app', []).
Proof.
  cbv zeta.
  set (app := {| trained_model := None; model_type := "rule-based";
                 sensor_data := initial_sensor_data;
                 weather_service := warm_service |}).
  destruct (set_city_changes_only_city app
              (PyDict [("city", PyStr " Paris ")]%string))
    as (_ & H2 & _ & H4).
  split.
  - apply (H2 [("city", PyStr " Paris ")]%string " Paris "%string);
      [ reflexivity | reflexivity | discriminate ].
  - apply (H4 {| time_time := 1100; requests_get := provider_says (PyFloat 31) |});
      reflexivity.
Defined.

(** ** Request validation *)

Section ValidationFacts.
Context {rt : Runtime}.

(** A body that lacks one of the three fields makes [predict] raise
    [KeyError] before anything else happens. *)
Lemma predict_missing_field (app : App) (env : Env)
  (kv : list (string * pyval)) :
  assoc "hour" kv = None \/ assoc "occupancy" kv = None
  \/ assoc "is_weekend" kv = None ->
  exists key, predict app env (PyDict kv) = (Raise (KeyError key), app, []).
Proof.
  intros H. unfold predict, predict_fields. cbn [py_getitem py_get bind].
  destruct (assoc "hour" kv) as [h|]; [ | eexists; reflexivity ].
  cbn [bind].
  destruct (assoc "occupancy" kv) as [o|]; [ | eexists; reflexivity ].
  cbn [bind].
  destruct (assoc "is_weekend" kv) as [w|]; [ | eexists; reflexivity ].
  exfalso. destruct H as [H|[H|H]]; discriminate.
Qed.
End ValidationFacts.

(** C2, at an input where the code departs from it: the body
    [{"occupancy": 150, "is_weekend": 0}] has no hour; [predict] raises
    [KeyError], which Flask answers with status 500, not with a 4xx; the
    service is unchanged and no request is sent. *)
Theorem predict_missing_hour_is_server_error :
  forall (rt : Runtime) (app : App) (env : Env),
    let data := PyDict [("occupancy", PyInt 150); ("is_weekend", PyInt 0)]%string in
    predict app env data = (Raise (KeyError "hour"), app, [])
    /\ status (flask_response (Raise (KeyError "hour"))) = 500.
Proof. intros rt app env data. split; reflexivity. Qed.

(** ** Further properties of the service *)

(** X1: the buffer of the dashboard always lies between 10 and 60 kW, NaN and
    infinite readings included. *)
Theorem buffer_kW_between_10_and_60 :
  forall current_usage : float,
    (10 <=? buffer_kW current_usage)%float = true
    /\ (buffer_kW current_usage <=? 60)%float = true.
Proof.
  intros current_usage.
  unfold buffer_kW, py_min.
  set (r := py_round (0.15 * py_max current_usage 0)%float 1).
  destruct (r <? 60)%float eqn:E1.
  - unfold py_max. destruct (10 <? r)%float eqn:E2.
    + revert E1 E2.
      rewrite !FloatAxioms.ltb_spec, !FloatAxioms.leb_spec.
      unfold SFltb, SFleb.
      destruct (SFcompare (Prim2SF 10) (Prim2SF r)) as [[]|]; try discriminate.
      destruct (SFcompare (Prim2SF r) (Prim2SF 60)) as [[]|]; try discriminate.
      auto.
    + split; reflexivity.
  - split; reflexivity.
Qed.

(** X2: a temperature other than zero, fetched and cached by one call, is what
    the next call returns when it comes less than [cache_timeout] later; that
    call sends no request and leaves the service as it is. *)
Theorem cached_temperature_is_reused :
  forall (self : WeatherService) (env1 env2 : Env) (t : pyval),
    no_api_key self = false -> cache_valid self (time_time env1) = false ->
    read_temp env1 (weather_request self 5) = Ok (Some t) ->
    format_1f t = Ok tt -> truthy t = true ->
    (time_time env2 - time_time env1 <? cache_timeout self)%float = true ->
    let '(v1, self1, _) := get_current_temperature self env1 in
    get_current_temperature self1 env2 = (v1, self1, []).
Proof.
  intros self env1 env2 t.
  intros Hk Hc Hr Hf Ht Hage.
  rewrite (get_current_temperature_fresh self env1 t Hk Hc Hr Hf).
  apply get_current_temperature_hit.
  - exact Hk.
  - unfold cache_valid. cbn [store_cache _cached_data _last_fetch cache_timeout].
    rewrite Ht, Hage. reflexivity.
Qed.

(** 18.5 degrees fetched at second 1000 are returned again at second 1299,
    with the provider down. *)
Lemma cached_temperature_is_reused_witness :
  let env1 := {| time_time := 1000; requests_get := provider_says (PyFloat 18.5) |} in
  let env2 := {| time_time := 1299; requests_get := provider_down |} in
  get_current_temperature warm_service env2 = (PyFloat 18.5, warm_service, []).
Proof.
  cbv zeta.
  exact (cached_temperature_is_reused keyed_service
           {| time_time := 1000; requests_get := provider_says (PyFloat 18.5) |}
           {| time_time := 1299; requests_get := provider_down |}
           (PyFloat 18.5) eq_refl eq_refl eq_refl eq_refl eq_refl eq_refl).
Defined.

(** X3: a call that misses the cache and whose fetch fails before a temperature
    is found (provider unreachable, error status, body that is not JSON,
    body without ["main"], ["main"] without ["temp"]) returns the default
    22.0 and leaves the service, cache entry included, as it was. *)
Theorem fetch_failure_keeps_cache :
  forall (self : WeatherService) (env : Env),
    no_api_key self = false -> cache_valid self (time_time env) = false ->
    (exists e, requests_get env (weather_request self 5) = ConnectionFailed e)
    \/ (exists e js, requests_get env (weather_request self 5)
                     = HttpResponse (Raise e) js)
    \/ (exists e, requests_get env (weather_request self 5)
                  = HttpResponse (Ok tt) (Raise e))
    \/ (exists kv, requests_get env (weather_request self 5)
                   = HttpResponse (Ok tt) (Ok (PyDict kv))
                   /\ assoc "main" kv = None)
    \/ (exists kv m, requests_get env (weather_request self 5)
                     = HttpResponse (Ok tt) (Ok (PyDict kv))
                     /\ assoc "main" kv = Some (PyDict m)
                     /\ assoc "temp" m = None) ->
    get_current_temperature self env
    = (PyFloat 22, self, [weather_request self 5]).
Proof.
  intros self env Hk Hc H.
  apply get_current_temperature_failed; try assumption.
  intros t. unfold read_temp, fetch_json.
  destruct H as [(e & ->)|[(e & js & ->)|[(e & ->)|[(kv & -> & Hm)
                |(kv & m & -> & Hm & Ht)]]]];
    cbn [bind py_contains]; try discriminate.
  - rewrite Hm. cbn [bind]. discriminate.
  - rewrite Hm. cbn [bind py_getitem]. rewrite Hm. cbn [bind py_contains].
    rewrite Ht. cbn [bind]. discriminate.
Qed.

(** The stale entry of second 1000 survives a failed fetch at second 2000. *)
Lemma fetch_failure_keeps_cache_witness :
  get_current_temperature warm_service
    {| time_time := 2000; requests_get := provider_down |}
  = (PyFloat 22, warm_service, [weather_request warm_service 5]).
Proof.
  apply (fetch_failure_keeps_cache warm_service
           {| time_time := 2000; requests_get := provider_down |});
    [ reflexivity | reflexivity | ].
  left. exists (RequestException "timed out"). reflexivity.
Defined.

(** ** More facts about doubles *)

Section Order.
Local Open Scope float_scope.

Lemma ltb_leb (a b : float) : (a <? b) = true -> (a <=? b) = true.
Proof.
  rewrite FloatAxioms.ltb_spec, FloatAxioms.leb_spec. unfold SFltb, SFleb.
  destruct (SFcompare (Prim2SF a) (Prim2SF b)) as [[]|]; congruence.
Qed.

Lemma ltb_asym (a b : float) : (a <? b) = true -> (b <? a) = false.
Proof.
  rewrite !FloatAxioms.ltb_spec. unfold SFltb.
  rewrite (SFcompare_antisym (Prim2SF a) (Prim2SF b)).
  destruct (SFcompare (Prim2SF a) (Prim2SF b)) as [[]|]; simpl; congruence.
Qed.

Lemma leb_not_nan (a b : float) :
  (a <=? b) = true -> is_nan a = false /\ is_nan b = false.
Proof.
  rewrite FloatAxioms.leb_spec. unfold SFleb. intros H.
  split; apply not_nan_spec; intros E; rewrite E in H;
    destruct (Prim2SF a), (Prim2SF b); discriminate.
Qed.

(** [max(lo, min(hi, x))] lies between [lo] and [hi], whatever [x] is. *)
Lemma py_max_min_between (lo hi x : float) :
  (lo <=? hi) = true ->
  (lo <=? py_max lo (py_min hi x)) = true
  /\ (py_max lo (py_min hi x) <=? hi) = true.
Proof.
  intros H. destruct (leb_not_nan _ _ H) as [Hlo Hhi].
  unfold py_min. destruct (x <? hi) eqn:E1; unfold py_max.
  - destruct (lo <? x) eqn:E2.
    + split; apply ltb_leb; assumption.
    + split; [ apply leb_refl, Hlo | exact H ].
  - destruct (lo <? hi) eqn:E2.
    + split; [ exact H | apply leb_refl, Hhi ].
    + split; [ apply leb_refl, Hlo | exact H ].
Qed.

(** [max(0, y)] with a first argument that is a number is a number that is
    not below it. *)
Lemma py_max_ge_first (a y : float) :
  is_nan a = false -> (a <=? py_max a y) = true.
Proof.
  intros Ha. unfold py_max. destruct (a <? y) eqn:E.
  - apply ltb_leb, E.
  - apply leb_refl, Ha.
Qed.

(** Dividing by a finite double other than zero never produces NaN. *)
Lemma SFdiv_not_nan (x : spec_float) (s : bool) (m : positive) (e : Z) :
  x <> S754_nan -> SFdiv prec emax x (S754_finite s m e) <> S754_nan.
Proof.
  intros Hx. destruct x as [sx|sx| |sx mx ex]; try congruence;
    try discriminate.
  unfold SFdiv.
  destruct (SFdiv_core_binary prec emax (Z.pos mx) ex (Z.pos m) e)
    as [[mz ez] lz] eqn:E.
  apply binary_round_aux_not_nan.
  unfold SFdiv_core_binary in E.
  set (m' := match _ with Z0 => _ | Zpos _ => _ | Zneg _ => _ end) in E.
  assert (Hm' : (0 <= m')%Z).
  { subst m'. destruct (_ - _)%Z; try lia. apply Z.shiftl_nonneg. lia. }
  pose proof (Z.div_pos m' (Z.pos m) Hm' ltac:(lia)) as Hq.
  unfold Z.div in Hq. destruct (Z.div_eucl m' (Z.pos m)) as [q r].
  injection E as <- _ _. exact Hq.
Qed.
End Order.

(** ** The dashboard's factors and metrics *)

(** X4: the occupancy profile of the dashboard, whenever it is computed, lies
    between 0.05 and 0.95, on weekdays and weekends and whatever the sine
    returns; and it is computed, without an exception, on every hour of the
    day. *)
Theorem occupancy_profile_between_005_and_095 :
  forall (rt : Runtime),
    (forall (hour_local : Z) (weekend : bool) (p : float),
        occupancy_profile_0_1 hour_local weekend = Ok p ->
        (0.05 <=? p)%float = true /\ (p <=? 0.95)%float = true)
    /\ (forall (hour_local : Z) (weekend : bool),
           0 <= hour_local <= 23 ->
           exists p, occupancy_profile_0_1 hour_local weekend = Ok p).
Proof.
  intros rt. split.
  - intros hour_local weekend p. unfold occupancy_profile_0_1.
    destruct (int_truediv (hour_local - 8) 24) as [q|e]; [ | discriminate ].
    cbn [bind]. destruct (math_sin _) as [s|e]; [ | discriminate ].
    cbn [bind]. intros H. injection H as <-.
    apply py_max_min_between. reflexivity.
  - intros hour_local weekend Hh.
    assert (H : match occupancy_profile_0_1 hour_local weekend with
                | Ok _ => true
                | Raise _ => false
                end = true).
    { hour_cases hour_local; vm_compute; reflexivity. }
    destruct (occupancy_profile_0_1 hour_local weekend) as [p|e];
      [ exists p; reflexivity | discriminate ].
Qed.

(** X4, at 14 h on a weekday. *)
Lemma occupancy_profile_between_005_and_095_witness :
  exists p,
    @occupancy_profile_0_1 sample_runtime 14 false = Ok p
    /\ (0.05 <=? p)%float = true /\ (p <=? 0.95)%float = true.
Proof.
  destruct (proj2 (occupancy_profile_between_005_and_095 sample_runtime)
              14 false ltac:(lia)) as [p Hp].
  exists p. split; [ exact Hp | ].
  exact (proj1 (occupancy_profile_between_005_and_095 sample_runtime)
           14 false p Hp).
Defined.

(** X5: for every temperature that is a number, infinite ones included, the
    temperature factor [min(max((temperature - 22.0) / 28, 0), 1)] lies
    between 0 and 1. *)
Theorem temp_factor_between_0_and_1 :
  forall temperature : float,
    is_nan temperature = false ->
    (0 <=? temp_factor temperature)%float = true
    /\ (temp_factor temperature <=? 1)%float = true.
Proof.
  intros temperature Ht. unfold temp_factor.
  set (d := ((temperature - 22) / 28)%float).
  assert (Hd : is_nan d = false).
  { apply not_nan_spec. unfold d.
    rewrite FloatAxioms.div_spec, FloatAxioms.sub_spec.
    change (Prim2SF 28) with (S754_finite false 7881299347898368 (-48)).
    apply SFdiv_not_nan, SFsub_not_nan.
    - apply not_nan_spec, Ht.
    - reflexivity. }
  assert (Hm : (0 <=? py_max d 0)%float = true).
  { unfold py_max. destruct (d <? 0)%float eqn:E; [ reflexivity | ].
    apply ltb_false_leb; [ exact Hd | reflexivity | exact E ]. }
  destruct (leb_not_nan _ _ Hm) as [_ Hn].
  unfold py_min. destruct (1 <? py_max d 0)%float eqn:E.
  - split; reflexivity.
  - split; [ exact Hm | ].
    apply ltb_false_leb; [ reflexivity | exact Hn | exact E ].
Qed.

(** X5, at 36 degrees: the factor is one half. *)
Lemma temp_factor_between_0_and_1_witness :
  temp_factor 36 = 0.5%float
  /\ (0 <=? temp_factor 36)%float = true
  /\ (temp_factor 36 <=? 1)%float = true.
Proof.
  split; [ reflexivity | ].
  exact (temp_factor_between_0_and_1 36%float eq_refl).
Defined.

(** X6: the savings percentage of the dashboard is always a number that is
    not negative (never NaN, whatever the readings), and it is zero when the
    current usage is zero. *)
Theorem savings_pct_never_negative :
  forall current_usage pred_usage : float,
    (0 <=? savings_pct current_usage pred_usage)%float = true
    /\ ((current_usage =? 0)%float = true ->
        savings_pct current_usage pred_usage = 0%float).
Proof.
  intros current_usage pred_usage. unfold savings_pct. cbn [truthy].
  destruct (current_usage =? 0)%float; cbn [negb].
  - split; reflexivity.
  - split; [ apply py_max_ge_first; reflexivity | discriminate ].
Qed.

(** X7: the ceiling [max_allowed] of the dashboard is never negative for a
    reading that is a number; and on a service that has just started, whose
    store holds no power reading, the dashboard reads 0.0 kW, the ceiling is
    0.0 and every positive prediction is shown as 0.0. *)
Theorem max_allowed_never_negative :
  (forall current_usage : float,
      is_nan current_usage = false ->
      (0 <=? max_allowed current_usage)%float = true)
  /\ (forall (rt : Runtime) (fs : FileSystem) (key : option string)
             (pred_usage : float),
         current_power_kW (startup fs key) = 0%float
         /\ ((0 <? pred_usage)%float = true ->
             capped_pred_usage (current_power_kW (startup fs key)) pred_usage
             = 0%float)).
Proof.
  split.
  - intros current_usage H. unfold max_allowed, py_max.
    destruct (_ <? 0)%float eqn:E; [ reflexivity | ].
    apply ltb_false_leb; [ | reflexivity | exact E ].
    apply not_nan_spec. rewrite FloatAxioms.sub_spec.
    apply SFsub_not_nan; [ apply not_nan_spec, H | apply buffer_kW_finite ].
  - intros rt fs key pred_usage.
    assert (H0 : current_power_kW (startup fs key) = 0%float).
    { unfold startup.
      destruct (load_trained_model fs _) as [model name]. reflexivity. }
    split; [ exact H0 | ].
    rewrite H0. intros Hp. unfold capped_pred_usage.
    change (max_allowed 0) with 0%float. rewrite Hp. reflexivity.
Qed.

(** X7, at 300 kW: the ceiling is 255 kW. *)
Lemma max_allowed_never_negative_witness :
  max_allowed 300 = 255%float /\ (0 <=? max_allowed 300)%float = true.
Proof.
  split; [ reflexivity | ].
  exact (proj1 max_allowed_never_negative 300%float eq_refl).
Defined.

(** ** The service over a sequence of requests *)

Section Frames.
Context {rt : Runtime}.

(** What a temperature call leaves alone: key, city, URL and timeout
    always, and the whole service when it sends nothing. *)
Lemma get_current_temperature_frame (self : WeatherService) (env : Env) :
  let '(_, self', sent) := get_current_temperature self env in
  api_key self' = api_key self /\ city self' = city self
  /\ base_url self' = base_url self
  /\ cache_timeout self' = cache_timeout self
  /\ (sent = [] -> self' = self).
Proof.
  unfold get_current_temperature.
  destruct (no_api_key self); [ repeat split | ].
  destruct (cache_valid self (time_time env)); [ repeat split | ].
  destruct (read_temp env (weather_request self 5)) as [[t|]|e];
    try (repeat split; discriminate).
  destruct (format_1f t); repeat split; discriminate.
Qed.

Lemma with_weather_service_same (app : App) :
  with_weather_service app (weather_service app) = app.
Proof. destruct app. reflexivity. Qed.

Lemma predict_frame (app : App) (env : Env) (data : pyval) :
  let '(_, app', sent) := predict app env data in
  trained_model app' = trained_model app
  /\ model_type app' = model_type app
  /\ sensor_data app' = sensor_data app
  /\ api_key (weather_service app') = api_key (weather_service app)
  /\ city (weather_service app') = city (weather_service app)
  /\ base_url (weather_service app') = base_url (weather_service app)
  /\ cache_timeout (weather_service app')
     = cache_timeout (weather_service app)
  /\ (sent = [] -> app' = app).
Proof.
  unfold predict.
  destruct (predict_fields data) as [[[[h t] o] w]|e]; [ | repeat split ].
  destruct t; try (repeat split).
  pose proof (get_current_temperature_frame (weather_service app) env) as H.
  destruct (get_current_temperature (weather_service app) env)
    as [[v ws] sent].
  destruct H as (H1 & H2 & H3 & H4 & H5).
  cbn [trained_model model_type sensor_data weather_service
       with_weather_service].
  repeat split; try assumption.
  intros Hs. rewrite (H5 Hs). apply with_weather_service_same.
Qed.

Lemma set_city_frame (app : App) (data : pyval) :
  let app' := snd (set_city app data) in
  trained_model app' = trained_model app
  /\ model_type app' = model_type app
  /\ sensor_data app' = sensor_data app
  /\ api_key (weather_service app') = api_key (weather_service app)
  /\ base_url (weather_service app') = base_url (weather_service app)
  /\ cache_timeout (weather_service app')
     = cache_timeout (weather_service app)
  /\ _cached_data (weather_service app')
     = _cached_data (weather_service app)
  /\ _last_fetch (weather_service app') = _last_fetch (weather_service app)
  /\ (city (weather_service app) <> EmptyString ->
      city (weather_service app') <> EmptyString).
Proof.
  unfold set_city.
  destruct (bind _ _) as [name|e]; [ | cbn; repeat split; auto ].
  destruct name as [|c name]; cbn; repeat split; auto.
  intros _. discriminate.
Qed.
(** What every route leaves alone. *)
Lemma serve_configuration (app : App) (env : Env) (c : Call) :
  let app' := snd (fst (serve app env c)) in
  trained_model app' = trained_model app
  /\ model_type app' = model_type app
  /\ api_key (weather_service app') = api_key (weather_service app)
  /\ base_url (weather_service app') = base_url (weather_service app)
  /\ cache_timeout (weather_service app')
     = cache_timeout (weather_service app).
Proof.
  destruct c as [data|data| | |data]; cbn [serve].
  - pose proof (predict_frame app env data) as H.
    destruct (predict app env data) as [[r app'] sent]. cbn [fst snd].
    destruct H as (H1 & H2 & H3 & H4 & H5 & H6 & H7 & H8).
    exact (conj H1 (conj H2 (conj H4 (conj H6 H7)))).
  - cbn. auto.
  - cbn. auto.
  - unfold get_weather.
    destruct (get_weather_info (weather_service app) env) as [info sent].
    cbn. auto.
  - pose proof (set_city_frame app data) as H.
    destruct (set_city app data) as [r app']. cbn [fst snd] in *.
    destruct H as (H1 & H2 & H3 & H4 & H5 & H6 & _).
    exact (conj H1 (conj H2 (conj H4 (conj H5 H6)))).
Qed.
End Frames.

(** X8: what each route leaves alone.  No request changes the model, its
    tag, the provider key, the URL or the cache timeout; only
    [POST /sensor_update] changes the snapshot; only [POST /set_city] changes
    the city; and the cache entry changes only in a [POST /predict] that sent
    a request to the provider. *)
Theorem serve_frame :
  forall (rt : Runtime) (app : App) (env : Env) (c : Call),
    let '(_, app', sent) := serve app env c in
    trained_model app' = trained_model app
    /\ model_type app' = model_type app
    /\ api_key (weather_service app') = api_key (weather_service app)
    /\ base_url (weather_service app') = base_url (weather_service app)
    /\ cache_timeout (weather_service app')
       = cache_timeout (weather_service app)
    /\ ((forall d, c <> PostSensorUpdate d) ->
        sensor_data app' = sensor_data app)
    /\ ((forall d, c <> PostSetCity d) ->
        city (weather_service app') = city (weather_service app))
    /\ ((forall d, c <> PostPredict d) \/ sent = [] ->
        _cached_data (weather_service app')
        = _cached_data (weather_service app)
        /\ _last_fetch (weather_service app')
           = _last_fetch (weather_service app)).
Proof.
  intros rt app env c. destruct c as [data|data| | |data]; cbn [serve].
  - pose proof (predict_frame app env data) as H.
    destruct (predict app env data) as [[r app'] sent].
    destruct H as (H1 & H2 & H3 & H4 & H5 & H6 & H7 & H8).
    refine (conj H1 (conj H2 (conj H4 (conj H6 (conj H7
              (conj (fun _ => H3) (conj (fun _ => H5) _))))))).
    intros [G|G]; [ elim (G data); reflexivity | ].
    rewrite (H8 G). split; reflexivity.
  - refine (conj eq_refl (conj eq_refl (conj eq_refl (conj eq_refl
              (conj eq_refl (conj _ (conj (fun _ => eq_refl)
                 (fun _ => conj eq_refl eq_refl)))))))).
    intros G. elim (G data). reflexivity.
  - exact (conj eq_refl (conj eq_refl (conj eq_refl (conj eq_refl
             (conj eq_refl (conj (fun _ => eq_refl) (conj (fun _ => eq_refl)
                (fun _ => conj eq_refl eq_refl)))))))).
  - unfold get_weather.
    destruct (get_weather_info (weather_service app) env) as [info sent].
    exact (conj eq_refl (conj eq_refl (conj eq_refl (conj eq_refl
             (conj eq_refl (conj (fun _ => eq_refl) (conj (fun _ => eq_refl)
                (fun _ => conj eq_refl eq_refl)))))))).
  - pose proof (set_city_frame app data) as H.
    destruct (set_city app data) as [r app']. cbn [snd] in H.
    destruct H as (H1 & H2 & H3 & H4 & H5 & H6 & H7 & H8 & H9).
    refine (conj H1 (conj H2 (conj H4 (conj H5 (conj H6
              (conj (fun _ => H3) (conj _ (fun _ => conj H7 H8)))))))).
    intros G. elim (G data). reflexivity.
Qed.

(** X8, on [GET /weather] with a cached temperature and the provider
    down: a request is sent and the cache entry is as before. *)
Lemma serve_frame_witness :
  let app := {| trained_model := None; model_type := "rule-based";
                sensor_data := initial_sensor_data;
                weather_service := warm_service |} in
  let env := {| time_time := 2000; requests_get := provider_down |} in
  let '(_, app', sent) := @serve sample_runtime app env GetWeather in
  sent = [weather_request warm_service 5]
  /\ _cached_data (weather_service app') = PyFloat 18.5
  /\ _last_fetch (weather_service app') = 1000%float.
Proof.
  cbv zeta.
  pose proof (serve_frame sample_runtime
                {| trained_model := None; model_type := "rule-based";
                   sensor_data := initial_sensor_data;
                   weather_service := warm_service |}
                {| time_time := 2000; requests_get := provider_down |}
                GetWeather) as H.
  destruct (serve _ _ GetWeather) as [[resp app'] sent] eqn:E.
  destruct H as (_ & _ & _ & _ & _ & _ & _ & H).
  destruct H as [H1 H2]; [ left; discriminate | ].
  split; [ | split; [ exact H1 | exact H2 ] ].
  injection E as _ _ <-. reflexivity.
Defined.

(** X9: after any sequence of requests, with any clock and any provider
    behaviour, the model and its tag are those the service started with, the
    provider key, URL and cache timeout are unchanged, a city that was not
    empty is still not empty, and the snapshot is the body of the last
    [POST /sensor_update] (the one it started with when there was none). *)
Theorem serve_all_invariants :
  forall (rt : Runtime) (calls : list (Env * Call)) (app : App),
    let app' := serve_all app calls in
    trained_model app' = trained_model app
    /\ model_type app' = model_type app
    /\ api_key (weather_service app') = api_key (weather_service app)
    /\ base_url (weather_service app') = base_url (weather_service app)
    /\ cache_timeout (weather_service app')
       = cache_timeout (weather_service app)
    /\ sensor_data app' = last_snapshot (sensor_data app) calls
    /\ (city (weather_service app) <> EmptyString ->
        city (weather_service app') <> EmptyString).
Proof.
  intros rt calls. induction calls as [|[env c] rest IH]; intros app.
  - cbn. repeat split; auto.
  - cbn [serve_all]. cbv zeta in IH |- *.
    specialize (IH (snd (fst (serve app env c)))).
    destruct IH as (I1 & I2 & I3 & I4 & I5 & I6 & I7).
    pose proof (serve_configuration app env c) as H. cbv zeta in H.
    assert (Hcity : city (weather_service app) <> EmptyString ->
                    city (weather_service (snd (fst (serve app env c))))
                    <> EmptyString).
    { destruct c as [data|data| | |data]; cbn [serve].
      - pose proof (predict_frame app env data) as P.
        destruct (predict app env data) as [[r a] s]. cbn.
        destruct P as (_ & _ & _ & _ & -> & _). auto.
      - cbn. auto.
      - cbn. auto.
      - unfold get_weather.
        destruct (get_weather_info _ _) as [info s]. cbn. auto.
      - pose proof (set_city_frame app data) as P.
        destruct (set_city app data) as [r a]. cbn in *.
        destruct P as (_ & _ & _ & _ & _ & _ & _ & _ & P). exact P. }
    assert (Hsnap : last_snapshot (sensor_data app) ((env, c) :: rest)
                    = last_snapshot
                        (sensor_data (snd (fst (serve app env c)))) rest).
    { destruct c as [data|data| | |data]; cbn [serve last_snapshot].
      - pose proof (predict_frame app env data) as P.
        destruct (predict app env data) as [[r a] s]. cbn.
        destruct P as (_ & _ & -> & _). reflexivity.
      - reflexivity.
      - reflexivity.
      - unfold get_weather.
        destruct (get_weather_info _ _) as [info s]. reflexivity.
      - pose proof (set_city_frame app data) as P.
        destruct (set_city app data) as [r a]. cbn in *.
        destruct P as (_ & _ & -> & _). reflexivity. }
    destruct (serve app env c) as [[resp app1] sent]. cbn [fst snd] in *.
    destruct H as (H1 & H2 & H3 & H4 & H5).
    repeat split; try congruence. auto.
Qed.

(** ** Start-up *)

(** X10: the model the service starts with.  The object in the real
    artifact is taken when the file exists and loads; otherwise the one in
    the synthetic artifact when that file exists and loads; otherwise there
    is no model and the tag is ["rule-based"].  A file that is missing or
    fails to load never stops the start-up.  The tag ["rule-based"] is only
    ever set without a model; an artifact that holds [None] leaves the
    service without a model under the artifact's tag, and the other
    artifact is not tried. *)
Theorem startup_model_selection :
  forall (fs : FileSystem) (key : option string),
    let app := startup fs key in
    (model_type app = "rule-based"%string -> trained_model app = None)
    /\ (forall loaded,
           path_exists fs REAL_MODEL_PATH = true ->
           joblib_load fs REAL_MODEL_PATH = Ok loaded ->
           trained_model app = loaded /\ model_type app = "real"%string)
    /\ (forall loaded,
           path_exists fs REAL_MODEL_PATH = false
           \/ (exists e, joblib_load fs REAL_MODEL_PATH = Raise e) ->
           path_exists fs MODEL_PATH = true ->
           joblib_load fs MODEL_PATH = Ok loaded ->
           trained_model app = loaded /\ model_type app = "synthetic"%string)
    /\ (path_exists fs REAL_MODEL_PATH = false
        \/ (exists e, joblib_load fs REAL_MODEL_PATH = Raise e) ->
        path_exists fs MODEL_PATH = false
        \/ (exists e, joblib_load fs MODEL_PATH = Raise e) ->
        trained_model app = None /\ model_type app = "rule-based"%string).
Proof.
  intros fs key. unfold startup. cbn [load_trained_model].
  destruct (path_exists fs REAL_MODEL_PATH) eqn:E1;
    [ destruct (joblib_load fs REAL_MODEL_PATH) as [m1|e1] eqn:L1 | ];
    try (destruct (path_exists fs MODEL_PATH) eqn:E2;
         [ destruct (joblib_load fs MODEL_PATH) as [m2|e2] eqn:L2 | ]);
    cbn [trained_model model_type];
    (split; [ intros H; try discriminate; reflexivity | ]);
    (split; [ intros m H1 H2; try discriminate;
              injection H2 as <-; split; reflexivity | ]);
    (split; [ intros m H1 H2 H3; try discriminate;
              try (destruct H1 as [H1|[e H1]]; discriminate);
              injection H3 as <-; split; reflexivity | ]);
    intros H1 H2;
    try (destruct H1 as [H1|[e H1]]; discriminate);
    try (destruct H2 as [H2|[e H2]]; discriminate);
    split; reflexivity.
Qed.

(** X10, with a real artifact that fails to load and a synthetic one that
    loads. *)
Lemma startup_model_selection_witness :
  let model : Model := fun _ => Ok 321%float in
  let fs := {| path_exists := fun _ => true;
               joblib_load := fun p =>
                 if String.eqb p REAL_MODEL_PATH then Raise ValueError
                 else Ok (Some model) |} in
  trained_model (startup fs None) = Some model
  /\ model_type (startup fs None) = "synthetic"%string.
Proof.
  cbv zeta.
  apply (proj1 (proj2 (proj2 (startup_model_selection
           {| path_exists := fun _ => true;
              joblib_load := fun p =>
                if String.eqb p REAL_MODEL_PATH then Raise ValueError
                else Ok (Some (fun _ => Ok 321%float)) |} None)))).
  - right. exists ValueError. reflexivity.
  - reflexivity.
  - reflexivity.
Defined.

(** ** How a prediction resolves its temperature *)

Section Resolution.
Context {rt : Runtime}.

Lemma predict_response_raw (app : App)
  (hour occupancy is_weekend : pyval) (t raw : float) :
  raw_prediction app hour (PyFloat t) occupancy is_weekend = Ok raw ->
  predict_response app hour (PyFloat t) occupancy is_weekend
  = Ok (prediction_response app raw t).
Proof.
  unfold raw_prediction, predict_response. intros H.
  destruct (trained_model app); rewrite H; reflexivity.
Qed.

(** [predict] on a body without temperature, in terms of the temperature
    call. *)
Lemma predict_without_temperature (app : App) (env : Env) (data : pyval)
  (hour occupancy is_weekend : pyval) :
  predict_fields data = Ok (hour, PyNone, occupancy, is_weekend) ->
  predict app env data
  = let '(temperature, ws, sent) :=
      get_current_temperature (weather_service app) env in
    (predict_response app hour temperature occupancy is_weekend,
     with_weather_service app ws, sent).
Proof. intros H. unfold predict. rewrite H. reflexivity. Qed.
End Resolution.

(** X11: a request without temperature never surfaces a weather failure.
    When the service has no provider key, or the fetch fails before a
    temperature is found, [POST /predict] answers 200 with the prediction
    for 22.0 degrees and [temperature_used = 22.0], and the service, cache
    entry included, is unchanged. *)
Theorem predict_absorbs_weather_failure :
  forall (rt : Runtime) (app : App) (env : Env) (data : pyval)
         (hour occupancy is_weekend : pyval) (raw : float),
    predict_fields data = Ok (hour, PyNone, occupancy, is_weekend) ->
    no_api_key (weather_service app) = true
    \/ (cache_valid (weather_service app) (time_time env) = false
        /\ forall t, read_temp env (weather_request (weather_service app) 5)
                     <> Ok (Some t)) ->
    raw_prediction app hour (PyFloat 22) occupancy is_weekend = Ok raw ->
    exists sent,
      predict app env data = (Ok (prediction_response app raw 22), app, sent)
      /\ py_round 22 1 = 22%float.
Proof.
  intros rt app env data hour occupancy is_weekend raw Hf Hw Hr.
  rewrite (predict_without_temperature app env data _ _ _ Hf).
  assert (Hg : exists sent,
             get_current_temperature (weather_service app) env
             = (PyFloat 22, weather_service app, sent)).
  { destruct Hw as [Hk|[Hc Hn]].
    - exists []. unfold get_current_temperature. rewrite Hk. reflexivity.
    - destruct (no_api_key (weather_service app)) eqn:Hk.
      + exists []. unfold get_current_temperature. rewrite Hk. reflexivity.
      + eexists. apply get_current_temperature_failed; assumption. }
  destruct Hg as [sent ->]. exists sent.
  rewrite (predict_response_raw app _ _ _ 22 raw Hr).
  rewrite with_weather_service_same. split; reflexivity.
Qed.

(** X11, the scenario of the test script: no key, no artifact, and
    [{"hour": 14, "occupancy": 150, "is_weekend": 0}]. *)
Lemma predict_absorbs_weather_failure_witness :
  let app := {| trained_model := None; model_type := "rule-based";
                sensor_data := initial_sensor_data;
                weather_service := new_WeatherService None "Darbhanga" |} in
  exists raw sent,
    @predict sample_runtime app
      {| time_time := 1000; requests_get := provider_down |}
      (PyDict [("hour", PyInt 14); ("occupancy", PyInt 150);
               ("is_weekend", PyInt 0)]%string)
    = (Ok (prediction_response app raw 22), app, sent).
Proof.
  cbv zeta. eexists.
  destruct (predict_absorbs_weather_failure sample_runtime
              {| trained_model := None; model_type := "rule-based";
                 sensor_data := initial_sensor_data;
                 weather_service := new_WeatherService None "Darbhanga" |}
              {| time_time := 1000; requests_get := provider_down |}
              (PyDict [("hour", PyInt 14); ("occupancy", PyInt 150);
                       ("is_weekend", PyInt 0)]%string)
              (PyInt 14) (PyInt 150) (PyInt 0) _
              eq_refl (or_introl eq_refl) eq_refl) as [sent [H _]].
  exists sent. exact H.
Defined.

(** X12: a request without temperature uses the temperature client.  With a
    valid cache entry holding a number, the prediction is made for that
    number, no request is sent and the service is unchanged; without a valid
    entry, a number the provider returns is used for the prediction and
    stored in the cache with the time of the call, after exactly one
    request. *)
Theorem predict_uses_temperature_client :
  forall (rt : Runtime) (app : App) (env : Env) (data : pyval)
         (hour occupancy is_weekend : pyval) (t raw : float),
    predict_fields data = Ok (hour, PyNone, occupancy, is_weekend) ->
    no_api_key (weather_service app) = false ->
    raw_prediction app hour (PyFloat t) occupancy is_weekend = Ok raw ->
    (cache_valid (weather_service app) (time_time env) = true ->
     _cached_data (weather_service app) = PyFloat t ->
     predict app env data = (Ok (prediction_response app raw t), app, []))
    /\ (cache_valid (weather_service app) (time_time env) = false ->
        read_temp env (weather_request (weather_service app) 5)
        = Ok (Some (PyFloat t)) ->
        predict app env data
        = (Ok (prediction_response app raw t),
           with_weather_service app
             (store_cache (weather_service app) (PyFloat t) (time_time env)),
           [weather_request (weather_service app) 5])).
Proof.
  intros rt app env data hour occupancy is_weekend t raw Hf Hk Hr.
  rewrite (predict_without_temperature app env data _ _ _ Hf). split.
  - intros Hc Ht.
    rewrite (get_current_temperature_hit _ env Hk Hc), Ht.
    rewrite (predict_response_raw app _ _ _ t raw Hr).
    rewrite with_weather_service_same. reflexivity.
  - intros Hc Hread.
    rewrite (get_current_temperature_fresh _ env (PyFloat t) Hk Hc Hread
               eq_refl).
    rewrite (predict_response_raw app _ _ _ t raw Hr). reflexivity.
Qed.

(** X12, with 18.5 degrees cached at second 1000 and a request at second
    1100: the prediction of the rule for noon is 292.5 kW. *)
Lemma predict_uses_temperature_client_witness :
  let app := {| trained_model := None; model_type := "rule-based";
                sensor_data := initial_sensor_data;
                weather_service := warm_service |} in
  @predict sample_runtime app
    {| time_time := 1100; requests_get := provider_down |}
    (PyDict [("hour", PyInt 12); ("occupancy", PyInt 0);
             ("is_weekend", PyInt 0)]%string)
  = (Ok (prediction_response app 292.5 18.5), app, []).
Proof.
  cbv zeta.
  apply (proj1 (predict_uses_temperature_client sample_runtime
           {| trained_model := None; model_type := "rule-based";
              sensor_data := initial_sensor_data;
              weather_service := warm_service |}
           {| time_time := 1100; requests_get := provider_down |}
           (PyDict [("hour", PyInt 12); ("occupancy", PyInt 0);
                    ("is_weekend", PyInt 0)]%string)
           (PyInt 12) (PyInt 0) (PyInt 0) 18.5%float 292.5%float
           eq_refl eq_refl eq_refl)); reflexivity.
Defined.

(** X13: a temperature that is not a number poisons the cache.  When the
    provider answers with a string that [float] rejects as temperature, the
    call that fetched it returns the default 22.0 but stores the string; a
    service without artifact that holds this entry answers every
    [POST /predict] without temperature made less than [cache_timeout]
    later with status 500, sending no request. *)
Theorem text_temperature_breaks_predict :
  forall (rt : Runtime) (self : WeatherService) (env1 env2 : Env)
         (s : string) (data hour occupancy is_weekend : pyval),
    no_api_key self = false -> cache_valid self (time_time env1) = false ->
    read_temp env1 (weather_request self 5) = Ok (Some (PyStr s)) ->
    s <> EmptyString -> float_of_str s = None ->
    (time_time env2 - time_time env1 <? cache_timeout self)%float = true ->
    predict_fields data = Ok (hour, PyNone, occupancy, is_weekend) ->
    let '(v1, self1, _) := get_current_temperature self env1 in
    v1 = PyFloat 22
    /\ _cached_data self1 = PyStr s
    /\ forall app,
         weather_service app = self1 -> trained_model app = None ->
         serve app env2 (PostPredict data)
         = ({| status := 500; body := PyNone |}, app, []).
Proof.
  intros rt self env1 env2 s data hour occupancy is_weekend
         Hk Hc Hread Hs Hfs Hage Hf.
  unfold get_current_temperature at 1. rewrite Hk, Hc, Hread.
  cbn [format_1f]. split; [ reflexivity | ]. split; [ reflexivity | ].
  intros app Hws Hm. cbn [serve].
  rewrite (predict_without_temperature app env2 data _ _ _ Hf).
  assert (Hhit : get_current_temperature (weather_service app) env2
                 = (PyStr s, weather_service app, [])).
  { rewrite Hws. apply get_current_temperature_hit; [ exact Hk | ].
    unfold cache_valid. cbn [store_cache _cached_data _last_fetch
                             cache_timeout truthy].
    rewrite Hage. destruct s; [ congruence | reflexivity ]. }
  rewrite Hhit. rewrite with_weather_service_same.
  unfold predict_response. rewrite Hm.
  unfold rule_based_predict. cbn [py_float]. rewrite Hfs. reflexivity.
Qed.

(** X13, with the temperature ["n/a"] fetched at second 1000 and a request
    at second 1100. *)
Lemma text_temperature_breaks_predict_witness :
  let env1 := {| time_time := 1000; requests_get := provider_says (PyStr "n/a") |} in
  let env2 := {| time_time := 1100; requests_get := provider_down |} in
  let '(v1, self1, _) := get_current_temperature keyed_service env1 in
  v1 = PyFloat 22
  /\ @serve sample_runtime
       {| trained_model := None; model_type := "rule-based";
          sensor_data := initial_sensor_data; weather_service := self1 |}
       env2
       (PostPredict (PyDict [("hour", PyInt 12); ("occupancy", PyInt 0);
                             ("is_weekend", PyInt 0)]%string))
     = ({| status := 500; body := PyNone |},
        {| trained_model := None; model_type := "rule-based";
           sensor_data := initial_sensor_data; weather_service := self1 |},
        []).
Proof.
  cbv zeta.
  pose proof (text_temperature_breaks_predict sample_runtime keyed_service
                {| time_time := 1000; requests_get := provider_says (PyStr "n/a") |}
                {| time_time := 1100; requests_get := provider_down |}
                "n/a"%string
                (PyDict [("hour", PyInt 12); ("occupancy", PyInt 0);
                         ("is_weekend", PyInt 0)]%string)
                (PyInt 12) (PyInt 0) (PyInt 0)
                eq_refl eq_refl eq_refl ltac:(discriminate) eq_refl eq_refl
                eq_refl) as H.
  destruct (get_current_temperature keyed_service _) as [[v1 self1] sent1].
  destruct H as (H1 & _ & H3). split; [ exact H1 | ].
  apply H3; reflexivity.
Defined.

(** ** The sensor feed *)

Section Feed.

Lemma in_Z_range (lo : Z) (n : nat) (z : Z) :
  lo <= z < lo + Z.of_nat n -> In z (Z_range lo n).
Proof.
  intros H. unfold Z_range. apply in_map_iff.
  exists (Z.to_nat (z - lo)). split; [ lia | ].
  apply in_seq. lia.
Qed.

Lemma base_occupancy_range (current_hour : Z) (d : Draws) :
  valid_draws d ->
  0 <= base_occupancy current_hour d <= 200
  /\ (current_hour < 6 \/ 23 < current_hour ->
      base_occupancy current_hour d = 0).
Proof.
  intros Hd. unfold base_occupancy.
  pose proof (proj1 (Hd (-30) 30 ltac:(lia))) as H1.
  pose proof (proj1 (Hd (-25) 25 ltac:(lia))) as H2.
  pose proof (proj1 (Hd (-40) 40 ltac:(lia))) as H3.
  pose proof (proj1 (Hd (-20) 20 ltac:(lia))) as H4.
  destruct (6 <=? current_hour) eqn:E1; destruct (current_hour <=? 23) eqn:E2;
    cbn [andb]; try (split; [ lia | reflexivity ]);
    (split; [ | lia ]);
    repeat match goal with
           | |- context [if ?c then _ else _] => destruct c
           end; lia.
Qed.

Lemma occupancy_factor_cases (current_temp : float) :
  occupancy_factor current_temp = 0.7%float
  \/ occupancy_factor current_temp = 1.2%float
  \/ occupancy_factor current_temp = 1%float.
Proof.
  unfold occupancy_factor.
  destruct (_ || _); [ left; reflexivity | ].
  destruct (_ && _); [ right; left | right; right ]; reflexivity.
Qed.

Lemma counts_checked :
  forallb (fun f =>
    forallb (fun b => forallb (counts_at_most 250 f b) (Z_range (-10) 21))
            (Z_range 0 201)
    && forallb (counts_at_most 10 f 0) (Z_range (-10) 21))
    [0.7; 1.2; 1]%float = true.
Proof. vm_compute. reflexivity. Qed.

Lemma converts_checked : forallb converts (Z_range (-20) 271) = true.
Proof. vm_compute. reflexivity. Qed.

Lemma counts_at_most_spec (limit : Z) (current_temp : float) (base noise : Z) :
  counts_at_most limit (occupancy_factor current_temp) base noise = true ->
  forall d current_hour,
    base_occupancy current_hour d = base -> draw_noise d (-10) 10 = noise ->
    exists o, feed_occupancy current_temp current_hour d = Ok o
              /\ 0 <= o <= limit.
Proof.
  intros H d current_hour <- <-. unfold feed_occupancy.
  unfold counts_at_most in H.
  destruct (float_of_int (base_occupancy current_hour d)) as [b|];
    [ | discriminate ].
  destruct (float_of_int (draw_noise d (-10) 10)) as [n|]; [ | discriminate ].
  cbn [bind]. destruct (int_of_float _) as [o|]; [ | discriminate ].
  cbn [bind]. exists (Z.max 0 o). split; [ reflexivity | lia ].
Qed.

(** The people the feed counts: never negative, at most 250, and at most 10
    outside the opening hours. *)
Lemma feed_occupancy_range (current_temp : float) (current_hour : Z)
  (d : Draws) :
  valid_draws d ->
  exists o, feed_occupancy current_temp current_hour d = Ok o
            /\ 0 <= o <= 250
            /\ (current_hour < 6 \/ 23 < current_hour -> o <= 10).
Proof.
  intros Hd.
  destruct (base_occupancy_range current_hour d Hd) as [Hb Hclosed].
  pose proof (proj1 (proj2 (Hd (-10) 10 ltac:(lia)))) as Hn.
  pose proof counts_checked as C. cbn [forallb] in C.
  assert (Hf : forall f,
             (forallb (fun b => forallb (counts_at_most 250 f b)
                                  (Z_range (-10) 21)) (Z_range 0 201)
              && forallb (counts_at_most 10 f 0) (Z_range (-10) 21)) = true ->
             occupancy_factor current_temp = f ->
             exists o, feed_occupancy current_temp current_hour d = Ok o
                       /\ 0 <= o <= 250
                       /\ (current_hour < 6 \/ 23 < current_hour -> o <= 10)).
  { intros f Hchk Ef. apply andb_prop in Hchk. destruct Hchk as [C1 C2].
    rewrite forallb_forall in C1, C2.
    pose proof (C1 (base_occupancy current_hour d)
                  (in_Z_range 0 201 (base_occupancy current_hour d) ltac:(lia))) as C1'.
    rewrite forallb_forall in C1'.
    pose proof (C1' (draw_noise d (-10) 10)
                  (in_Z_range (-10) 21 (draw_noise d (-10) 10) ltac:(lia))) as K.
    rewrite <- Ef in K.
    destruct (counts_at_most_spec 250 current_temp _ _ K d current_hour
                eq_refl eq_refl) as (o & Ho & Hr).
    exists o. split; [ exact Ho | ]. split; [ exact Hr | ].
    intros Hc. pose proof (Hclosed Hc) as Hz.
    pose proof (C2 (draw_noise d (-10) 10)
                  (in_Z_range (-10) 21 (draw_noise d (-10) 10) ltac:(lia))) as K2.
    rewrite <- Ef in K2.
    destruct (counts_at_most_spec 10 current_temp _ _ K2 d current_hour
                Hz eq_refl) as (o' & Ho' & Hr').
    rewrite Ho in Ho'. injection Ho' as <-. lia. }
  repeat rewrite andb_true_iff in C.
  destruct C as ((Ca & Cb) & (Cc & Cd) & (Ce & Cf) & _).
  destruct (occupancy_factor_cases current_temp) as [E|[E|E]].
  - apply (Hf 0.7%float); [ rewrite Ca, Cb; reflexivity | exact E ].
  - apply (Hf 1.2%float); [ rewrite Cc, Cd; reflexivity | exact E ].
  - apply (Hf 1%float); [ rewrite Ce, Cf; reflexivity | exact E ].
Qed.

Lemma small_int_converts (z : Z) :
  -20 <= z <= 250 -> exists f, float_of_int z = Ok f.
Proof.
  intros H. pose proof converts_checked as C.
  rewrite forallb_forall in C.
  specialize (C z (in_Z_range (-20) 271 z ltac:(lia))).
  unfold converts in C. destruct (float_of_int z) as [f|]; [ | discriminate ].
  exists f. reflexivity.
Qed.

Lemma realistic_bounds_cases (power_kW : float) :
  realistic_bounds power_kW = PyInt 200
  \/ realistic_bounds power_kW = PyInt 800
  \/ (realistic_bounds power_kW = PyFloat power_kW
      /\ (200 <? power_kW)%float = true /\ (power_kW <? 800)%float = true).
Proof.
  unfold realistic_bounds.
  destruct (power_kW <? 800)%float; [ | right; left; reflexivity ].
  destruct (200 <? power_kW)%float; [ | left; reflexivity ].
  right. right. repeat split.
Qed.
End Feed.

(** X14: every snapshot the sensor feed posts is within its bounds.  For any
    temperature (NaN and infinities included), any hour and any outcome of
    the three random draws, one round of the loop raises no exception; the
    occupancy it posts is an integer from 0 to 250, at most 10 outside the
    opening hours (before 6 h), and the power is the int 200, the int 800 or
    a float strictly between 200 and 800. *)
Theorem feed_snapshot_within_bounds :
  forall (current_temp : float) (current_hour : Z) (d : Draws)
         (timestamp : string),
    valid_draws d ->
    exists (occupancy : Z) (power : pyval),
      feed_snapshot current_temp current_hour d timestamp
      = Ok (PyDict [("occupancy", PyInt occupancy);
                    ("power_kW", power);
                    ("temperature", PyFloat (py_round current_temp 1));
                    ("timestamp", PyStr timestamp)]%string)
      /\ 0 <= occupancy <= 250
      /\ (current_hour < 6 \/ 23 < current_hour -> occupancy <= 10)
      /\ (power = PyInt 200 \/ power = PyInt 800
          \/ exists p, power = PyFloat p
                       /\ (200 <? p)%float = true /\ (p <? 800)%float = true).
Proof.
  intros current_temp current_hour d timestamp Hd.
  destruct (feed_occupancy_range current_temp current_hour d Hd)
    as (o & Ho & Hr & Hc).
  pose proof (proj2 (proj2 (Hd (-20) 20 ltac:(lia)))) as Hp.
  destruct (small_int_converts o ltac:(lia)) as [fo Efo].
  destruct (small_int_converts (draw_power d (-20) 20) ltac:(lia)) as [fr Efr].
  unfold feed_snapshot. rewrite Ho. cbn [bind].
  unfold feed_power. rewrite Efo, Efr. cbn [bind].
  eexists. eexists. split; [ reflexivity | ].
  split; [ exact Hr | ]. split; [ exact Hc | ].
  destruct (realistic_bounds_cases
              (py_round (250 + hvac_power current_temp + fo * 1.2 + fr)%float 2))
    as [E|[E|(E & E1 & E2)]]; rewrite E.
  - left. reflexivity.
  - right. left. reflexivity.
  - right. right. eexists. split; [ reflexivity | split; assumption ].
Qed.

(** X14, at 30 degrees and 19 h with every draw at its upper bound. *)
Lemma feed_snapshot_within_bounds_witness :
  let d := {| draw_base := fun _ b => b; draw_noise := fun _ b => b;
              draw_power := fun _ b => b |} in
  exists (occupancy : Z) (power : pyval),
    feed_snapshot 30 19 d "2025-07-09T19:00:00"
    = Ok (PyDict [("occupancy", PyInt occupancy);
                  ("power_kW", power);
                  ("temperature", PyFloat (py_round 30 1));
                  ("timestamp", PyStr "2025-07-09T19:00:00")]%string)
    /\ 0 <= occupancy <= 250.
Proof.
  cbv zeta.
  destruct (feed_snapshot_within_bounds 30%float 19
              {| draw_base := fun _ b => b; draw_noise := fun _ b => b;
                 draw_power := fun _ b => b |}
              "2025-07-09T19:00:00"%string)
    as (o & p & H1 & H2 & _).
  - intros a b Hab. cbn. lia.
  - exists o, p. split; assumption.
Defined.

Section Telemetry.
Context {rt : Runtime}.
Local Open Scope float_scope.

Lemma above_200_is_truthy (p : float) :
  (200 <? p) = true -> truthy (PyFloat p) = true.
Proof.
  cbn [truthy]. rewrite FloatAxioms.ltb_spec, FloatAxioms.eqb_spec.
  unfold SFltb, SFeqb.
  change (Prim2SF 200) with (S754_finite false 7036874417766400 (-45)).
  change (Prim2SF 0) with (S754_zero false).
  destruct (Prim2SF p) as [s|s| |s m e]; cbn; try discriminate;
    try reflexivity; destruct s; reflexivity.
Qed.

(** What the dashboard reads once a snapshot of the feed is in the store. *)
Lemma fetch_sensor_after_update (app : App) (occupancy : Z) (power : pyval)
  (temperature timestamp : pyval) (usage : float) :
  py_float power = Ok usage -> truthy power = true ->
  fetch_sensor
    (http_of (Ok (current_status
       (snd (sensor_update app
          (PyDict [("occupancy", PyInt occupancy); ("power_kW", power);
                   ("temperature", temperature);
                   ("timestamp", timestamp)]%string))))))
  = (occupancy, usage).
Proof.
  intros Hp Ht. unfold fetch_sensor, http_of. cbn [status body current_status
    sensor_update snd sensor_data with_sensor_data].
  cbn [Z.leb Z.ltb Z.compare Pos.compare Pos.compare_cont andb bind py_get
       assoc String.eqb Ascii.eqb Bool.eqb].
  unfold py_or at 1. rewrite Ht. rewrite Hp. cbn [bind].
  unfold py_or. cbn [truthy].
  destruct (occupancy =? 0)%Z eqn:E; cbn [negb py_int bind].
  - apply Z.eqb_eq in E. subst. reflexivity.
  - reflexivity.
Qed.
End Telemetry.

(** X15: from the store to the dashboard.  Once a snapshot with an integer
    occupancy and a power that is the int 200, the int 800 or a float
    strictly between them (the snapshots the feed posts) is posted to
    [/sensor_update], whatever the store held before, the dashboard reads
    from [/current_status] exactly that occupancy, zero included, and that
    power as a double between 200 and 800 kW. *)
Theorem snapshot_reaches_dashboard :
  forall (rt : Runtime) (app : App) (occupancy : Z)
         (power temperature timestamp : pyval),
    power = PyInt 200 \/ power = PyInt 800
    \/ (exists p, power = PyFloat p
                  /\ (200 <? p)%float = true /\ (p <? 800)%float = true) ->
    exists usage : float,
      py_float power = Ok usage
      /\ fetch_sensor
           (http_of (Ok (current_status
              (snd (sensor_update app
                 (PyDict [("occupancy", PyInt occupancy); ("power_kW", power);
                          ("temperature", temperature);
                          ("timestamp", timestamp)]%string))))))
         = (occupancy, usage)
      /\ (200 <=? usage)%float = true /\ (usage <=? 800)%float = true.
Proof.
  intros rt app occupancy power temperature timestamp Hp.
  assert (Hu : exists usage,
             py_float power = Ok usage /\ truthy power = true
             /\ (200 <=? usage)%float = true /\ (usage <=? 800)%float = true).
  { destruct Hp as [->|[->|(p & -> & H1 & H2)]].
    - exists 200%float. repeat split.
    - exists 800%float. repeat split.
    - exists p. split; [ reflexivity | ].
      split; [ apply above_200_is_truthy, H1 | ].
      split; apply ltb_leb; assumption. }
  destruct Hu as (usage & Hf & Ht & H1 & H2).
  exists usage. split; [ exact Hf | ]. split; [ | split; assumption ].
  apply fetch_sensor_after_update; assumption.
Qed.

(** X15, with nobody in the store and 412.35 kW. *)
Lemma snapshot_reaches_dashboard_witness :
  @fetch_sensor sample_runtime
    (http_of (Ok (current_status
       (snd (sensor_update app_300kW
          (PyDict [("occupancy", PyInt 0); ("power_kW", PyFloat 412.35);
                   ("temperature", PyFloat 30);
                   ("timestamp", PyStr "2025-07-09T03:00:00")]%string))))))
  = (0, 412.35%float).
Proof.
  destruct (snapshot_reaches_dashboard sample_runtime app_300kW 0
              (PyFloat 412.35) (PyFloat 30) (PyStr "2025-07-09T03:00:00"))
    as (u & Hu & H & _).
  - right. right. exists 412.35%float. repeat split.
  - injection Hu as <-. exact H.
Defined.

(** X16: the temperature the sensor feed works with.  It asks the service's
    [GET /weather]; when the service has no provider key, or its fetch fails
    in any way, or the service cannot be reached, the feed uses 22.0; when
    the provider's reading carries a number, the feed uses that number. *)
Theorem feed_temperature_follows_service :
  forall (rt : Runtime) (app : App) (env : Env),
    (no_api_key (weather_service app) = true
     \/ (exists e, read_weather_info (weather_service app) env
                     (weather_request (weather_service app) 5) = Raise e) ->
     get_backend_temperature (http_of (Ok (fst (get_weather app env))))
     = 22%float)
    /\ (forall e, get_backend_temperature (ConnectionFailed e) = 22%float)
    /\ (forall kv t,
           no_api_key (weather_service app) = false ->
           read_weather_info (weather_service app) env
             (weather_request (weather_service app) 5) = Ok (PyDict kv) ->
           assoc "temperature" kv = Some (PyFloat t) ->
           get_backend_temperature (http_of (Ok (fst (get_weather app env))))
           = t).
Proof.
  intros rt app env. split; [ | split ].
  - intros H. unfold get_weather, get_weather_info.
    destruct (no_api_key (weather_service app)); [ reflexivity | ].
    destruct H as [H|[e H]]; [ discriminate | ].
    rewrite H. reflexivity.
  - intros e. reflexivity.
  - intros kv t Hk Hr Ht. unfold get_weather, get_weather_info.
    rewrite Hk, Hr. unfold get_backend_temperature, http_of.
    cbn [fst status body]. cbn [Z.leb Z.ltb Z.compare Pos.compare
      Pos.compare_cont andb bind py_get].
    rewrite Ht. reflexivity.
Qed.

(** X16, with a cached temperature and the provider down: the feed uses the
    default, not the cache. *)
Lemma feed_temperature_follows_service_witness :
  let app := {| trained_model := None; model_type := "rule-based";
                sensor_data := initial_sensor_data;
                weather_service := warm_service |} in
  let env := {| time_time := 1100; requests_get := provider_down |} in
  @get_backend_temperature sample_runtime
    (http_of (Ok (fst (get_weather app env)))) = 22%float.
Proof.
  cbv zeta.
  apply (proj1 (feed_temperature_follows_service sample_runtime
           {| trained_model := None; model_type := "rule-based";
              sensor_data := initial_sensor_data;
              weather_service := warm_service |}
           {| time_time := 1100; requests_get := provider_down |})).
  right. exists (RequestException "timed out"). reflexivity.
Defined.

(** ** The city, the provider and the dashboard's prediction *)

Section CityFacts.

Lemma set_city_stores (app : App) (kv : list (string * pyval)) (c : string) :
  assoc "city" kv = Some (PyStr c) -> str_strip c <> EmptyString ->
  snd (set_city app (PyDict kv))
  = with_weather_service app (with_city (weather_service app) (str_strip c)).
Proof.
  intros Hc Hs. unfold set_city.
  assert (Hor : py_or (PyDict kv) (PyDict []) = PyDict kv)
    by (destruct kv; [ discriminate | reflexivity ]).
  rewrite Hor. cbn [py_get bind]. rewrite Hc.
  assert (Ht : truthy (PyStr c) = true).
  { cbn [truthy]. destruct c; [ elim Hs; reflexivity | reflexivity ]. }
  unfold py_or at 1. rewrite Ht. cbn [py_strip truthy].
  destruct (str_strip c); [ congruence | reflexivity ].
Qed.
End CityFacts.

(** X17: the new city is used at once.  After a [POST /set_city] with a name
    that is not blank, the service holds the stripped name, and the next
    request either weather method sends to the provider (the temperature
    call when it finds no valid cache entry, the full reading always) asks
    for that name, with the same key, metric units and a timeout of 5 s. *)
Theorem set_city_then_fetch :
  forall (rt : Runtime) (app : App) (kv : list (string * pyval)) (c : string)
         (env : Env),
    assoc "city" kv = Some (PyStr c) -> str_strip c <> EmptyString ->
    no_api_key (weather_service app) = false ->
    let self' := weather_service (snd (set_city app (PyDict kv))) in
    let req := {| url := base_url (weather_service app);
                  params := [("q", str_strip c);
                             ("appid",
                              match api_key (weather_service app) with
                              | Some k => k
                              | None => EmptyString
                              end);
                             ("units", "metric")]%string;
                  timeout := 5 |} in
    city self' = str_strip c
    /\ (cache_valid (weather_service app) (time_time env) = false ->
        snd (get_current_temperature self' env) = [req])
    /\ snd (get_weather_info self' env) = [req].
Proof.
  intros rt app kv c env Hc Hs Hk. cbv zeta.
  rewrite (set_city_stores app kv c Hc Hs).
  cbn [weather_service with_weather_service]. split; [ reflexivity | ].
  split.
  - intros Hv.
    exact (get_current_temperature_miss
             (with_city (weather_service app) (str_strip c)) env Hk Hv).
  - unfold get_weather_info.
    change (no_api_key (with_city (weather_service app) (str_strip c)))
      with (no_api_key (weather_service app)).
    rewrite Hk.
    destruct (read_weather_info _ env _); reflexivity.
Qed.

(** X17, on a service with a key and an empty cache, for ["Paris"] typed
    after a no-break space (U+00A0) and before a blank. *)
Lemma set_city_then_fetch_witness :
  let app := {| trained_model := None; model_type := "rule-based";
                sensor_data := initial_sensor_data;
                weather_service := keyed_service |} in
  let env := {| time_time := 1000; requests_get := provider_down |} in
  let typed := String (ascii_of_N 194) (String (ascii_of_N 160) "Paris ") in
  let self' :=
    weather_service (snd (set_city app (PyDict [("city", PyStr typed)]%string))) in
  city self' = "Paris"%string
  /\ snd (@get_weather_info sample_runtime self' env)
     = [{| url := "https://api.openweathermap.org/data/2.5/weather";
           params := [("q", "Paris"); ("appid", "k3y");
                      ("units", "metric")]%string;
           timeout := 5 |}].
Proof.
  cbv zeta.
  destruct (set_city_then_fetch sample_runtime
              {| trained_model := None; model_type := "rule-based";
                 sensor_data := initial_sensor_data;
                 weather_service := keyed_service |}
              [("city",
                PyStr (String (ascii_of_N 194)
                         (String (ascii_of_N 160) "Paris ")))]%string
              (String (ascii_of_N 194) (String (ascii_of_N 160) "Paris "))
              {| time_time := 1000; requests_get := provider_down |}
              eq_refl ltac:(discriminate) eq_refl) as (H1 & _ & H3).
  split; [ exact H1 | exact H3 ].
Defined.

(** X18: [POST /set_city] is idempotent and the last accepted name wins.
    Posting the same body twice leaves the service as after the first time;
    and when a second body is accepted (status 200), the service is what it
    would be had only that second body been posted. *)
Theorem set_city_idempotent_last_wins :
  forall (app : App) (first second : pyval),
    snd (set_city (snd (set_city app first)) first) = snd (set_city app first)
    /\ ((exists resp, fst (set_city app second) = Ok resp
                      /\ status resp = 200) ->
        snd (set_city (snd (set_city app first)) second)
        = snd (set_city app second)).
Proof.
  intros app first second. split.
  - unfold set_city. destruct (bind _ _) as [name|e]; [ | reflexivity ].
    destruct (negb (truthy (PyStr name))); reflexivity.
  - intros (resp & Hr & Hs). unfold set_city in *.
    destruct (bind (py_get (py_or second (PyDict [])) "city" PyNone) _)
      as [name2|e2]; [ | discriminate ].
    destruct (negb (truthy (PyStr name2))).
    + cbn [fst] in Hr. injection Hr as <-. discriminate.
    + destruct (bind (py_get (py_or first (PyDict [])) "city" PyNone) _)
        as [name1|e1]; [ | reflexivity ].
      destruct (negb (truthy (PyStr name1))); reflexivity.
Qed.

(** X18, with ["Delhi"] and then [" Paris "]. *)
Lemma set_city_idempotent_last_wins_witness :
  let app := {| trained_model := None; model_type := "rule-based";
                sensor_data := initial_sensor_data;
                weather_service := warm_service |} in
  city (weather_service
          (snd (set_city (snd (set_city app (PyDict [("city", PyStr "Delhi")]%string)))
                  (PyDict [("city", PyStr " Paris ")]%string))))
  = "Paris"%string.
Proof.
  cbv zeta.
  rewrite (proj2 (set_city_idempotent_last_wins
             {| trained_model := None; model_type := "rule-based";
                sensor_data := initial_sensor_data;
                weather_service := warm_service |}
             (PyDict [("city", PyStr "Delhi")]%string)
             (PyDict [("city", PyStr " Paris ")]%string))).
  - reflexivity.
  - eexists. split; reflexivity.
Defined.

(** X19: the dashboard always has a prediction.  For an hour of the day, a
    temperature and an occupancy that [float] can represent,
    [get_backend_prediction] returns a triple whatever the service does
    (unreachable, error status, body that is not JSON or not an object,
    prediction that is not a number); whenever the [try] block fails, the
    triple is the rule's own value, the tag ["fallback"] and the dashboard's
    temperature. *)
Theorem get_backend_prediction_always_answers :
  forall (rt : Runtime) (post : pyval -> http_result)
         (hour occupancy is_weekend : Z) (temperature h o : float),
    float_of_int hour = Ok h -> is_infinity (hour_angle h) = false ->
    float_of_int occupancy = Ok o ->
    (exists pred tag used,
        get_backend_prediction post (PyInt hour) (PyFloat temperature)
          (PyInt occupancy) (PyInt is_weekend) = Ok (pred, tag, used))
    /\ (forall e,
           backend_prediction post (PyInt hour) (PyFloat temperature)
             (PyInt occupancy) (PyInt is_weekend) = Raise e ->
           get_backend_prediction post (PyInt hour) (PyFloat temperature)
             (PyInt occupancy) (PyInt is_weekend)
           = Ok ((200 + 5 * temperature + 2 * o
                  + 20 * (if negb (is_weekend =? 0)%Z then 1 else 0)
                  + 10 * sin (hour_angle h))%float,
                 PyStr "fallback", PyFloat temperature)).
Proof.
  intros rt post hour occupancy is_weekend temperature h o Hh Hfin Ho.
  assert (Hfb : forall e,
             backend_prediction post (PyInt hour) (PyFloat temperature)
               (PyInt occupancy) (PyInt is_weekend) = Raise e ->
             get_backend_prediction post (PyInt hour) (PyFloat temperature)
               (PyInt occupancy) (PyInt is_weekend)
             = Ok ((200 + 5 * temperature + 2 * o
                    + 20 * (if negb (is_weekend =? 0)%Z then 1 else 0)
                    + 10 * sin (hour_angle h))%float,
                   PyStr "fallback", PyFloat temperature)).
  { intros e He. unfold get_backend_prediction. rewrite He.
    change (fallback_rule (PyInt hour) (PyFloat temperature)
              (PyInt occupancy) (PyInt is_weekend))
      with (rule_based_predict (PyInt hour) (PyFloat temperature)
              (PyInt occupancy) (PyInt is_weekend)).
    rewrite (rule_based_predict_sum _ _ _ temperature _ _ Hh Hfin Ho).
    reflexivity. }
  split; [ | exact Hfb ].
  destruct (backend_prediction post (PyInt hour) (PyFloat temperature)
              (PyInt occupancy) (PyInt is_weekend)) as [[[p t] u]|e] eqn:E.
  - exists p, t, u. unfold get_backend_prediction. rewrite E. reflexivity.
  - eexists _, _, _. apply (Hfb e). reflexivity.
Qed.

(** X19, at noon with the service unreachable: the fallback gives 500 kW. *)
Lemma get_backend_prediction_always_answers_witness :
  @get_backend_prediction sample_runtime (fun _ => provider_down
      {| url := ""; params := []; timeout := 2 |})
    (PyInt 12) (PyFloat 40) (PyInt 50) (PyInt 0)
  = Ok (500%float, PyStr "fallback", PyFloat 40).
Proof.
  rewrite (proj2 (get_backend_prediction_always_answers sample_runtime
             (fun _ => provider_down {| url := ""; params := []; timeout := 2 |})
             12 50 0 40%float 12%float 50%float eq_refl eq_refl eq_refl)
             (RequestException "timed out") eq_refl).
  reflexivity.
Defined.

(** X20: the dashboard against the running service.  For a temperature
    that is a finite number, when the service can make the prediction,
    [get_backend_prediction] returns the output of the model or of the rule
    rounded to two decimals, the service's tag and the temperature rounded
    to one decimal; the request changes nothing in the service and makes it
    send nothing, since the dashboard always supplies the temperature.  A
    temperature that is NaN or infinite never reaches the service:
    [requests.post] refuses the payload, the [try] block raises and the
    dashboard is left with its own rule. *)
Theorem dashboard_reads_service_prediction :
  forall (rt : Runtime) (app : App) (env : Env)
         (hour occupancy is_weekend : Z) (temperature : float),
    (is_nan temperature || is_infinity temperature = false ->
     forall raw,
       raw_prediction app (PyInt hour) (PyFloat temperature)
         (PyInt occupancy) (PyInt is_weekend) = Ok raw ->
       get_backend_prediction (post_predict app env) (PyInt hour)
         (PyFloat temperature) (PyInt occupancy) (PyInt is_weekend)
       = Ok (py_round raw 2, PyStr (model_type app),
             PyFloat (py_round temperature 1))
       /\ predict app env
            (PyDict [("hour", PyInt hour);
                     ("temperature", PyFloat temperature);
                     ("occupancy", PyInt occupancy);
                     ("is_weekend", PyInt is_weekend)]%string)
          = (Ok (prediction_response app raw temperature), app, []))
    /\ (is_nan temperature || is_infinity temperature = true ->
        backend_prediction (post_predict app env) (PyInt hour)
          (PyFloat temperature) (PyInt occupancy) (PyInt is_weekend)
        = Raise (RequestException "InvalidJSONError")).
Proof.
  intros rt app env hour occupancy is_weekend temperature. split.
  - intros Hfin raw Hr.
    pose proof (predict_returns_rounded_output app env (PyInt hour)
                  (PyInt occupancy) (PyInt is_weekend) temperature raw Hr)
      as Hp.
    split; [ | exact Hp ].
    unfold get_backend_prediction, backend_prediction.
    cbn [py_int py_float bind]. unfold post_predict.
    cbn [json_compliant forallb snd]. rewrite Hfin. cbn [negb andb].
    rewrite Hp. reflexivity.
  - intros Hinf. unfold backend_prediction.
    cbn [py_int py_float bind]. unfold post_predict.
    cbn [json_compliant forallb snd]. rewrite Hinf. reflexivity.
Qed.

(** X20, on the service drawing 300 kW: the dashboard gets 500 kW, and caps
    it at 255 kW. *)
Lemma dashboard_reads_service_prediction_witness :
  @get_backend_prediction sample_runtime
    (@post_predict sample_runtime app_300kW
       {| time_time := 1000; requests_get := provider_down |})
    (PyInt 12) (PyFloat 40) (PyInt 50) (PyInt 0)
  = Ok (500%float, PyStr "rule-based", PyFloat 40).
Proof.
  exact (proj1 (proj1 (dashboard_reads_service_prediction sample_runtime
                         app_300kW
                         {| time_time := 1000; requests_get := provider_down |}
                         12 50 0 40%float) eq_refl 500%float eq_refl)).
Defined.

(** ** The dashboard's weather *)

Section DashboardWeather.
Context {rt : Runtime}.

Lemma str_in_comma_cons (c : ascii) (s : string) :
  str_in "," (String c s) = if Ascii.eqb c ","%char then true else str_in "," s.
Proof.
  cbn [str_in String.prefix].
  destruct (ascii_dec "," c) as [e|n].
  - subst c. destruct s; reflexivity.
  - destruct (Ascii.eqb_spec c ","%char) as [e|_]; [ congruence | reflexivity ].
Qed.

Lemma split_comma_first (a b : string) :
  str_in "," a = false ->
  split_comma (a ++ String "," b) = Some (a, b)
  /\ str_in "," (a ++ String "," b) = true.
Proof.
  induction a as [|c a IH]; intros Ha.
  - change (EmptyString ++ String "," b)%string with (String "," b).
    rewrite str_in_comma_cons. split; reflexivity.
  - rewrite str_in_comma_cons in Ha.
    change (String c a ++ String "," b)%string
      with (String c (a ++ String "," b)).
    rewrite str_in_comma_cons. cbn [split_comma].
    destruct (Ascii.eqb c ","%char); [ discriminate | ].
    destruct (IH Ha) as [-> ->]. split; reflexivity.
Qed.

Lemma coordinates_without_comma (s : string) :
  str_in "," s = false -> coordinates s = None.
Proof. intros H. unfold coordinates. rewrite H. reflexivity. Qed.

Lemma fetch_weather_error_reply (key : string)
  (get : list (string * pyval) -> result Reply) (city_or_coords : string)
  (r : Reply) (kv : list (string * pyval)) :
  key <> EmptyString ->
  get (weather_params key city_or_coords) = Ok r ->
  reply_json r = Ok (PyDict kv) ->
  status_code r <> 200 \/ assoc "main" kv = None \/ assoc "weather" kv = None ->
  fetch_weather (Some key) get city_or_coords
  = Ok (PyDict [("error", PyBool true);
                ("msg", match assoc "message" kv with
                        | Some m => m
                        | None => PyStr "Unknown error"
                        end)]%string).
Proof.
  intros Hkey Hget Hjson Hbad. unfold fetch_weather.
  destruct key as [|c key]; [ congruence | ].
  rewrite Hget. cbn [bind]. rewrite Hjson. cbn [bind py_contains].
  destruct (status_code r =? 200) eqn:Hs; cbn [negb bind].
  - destruct Hbad as [Hbad | [Hbad | Hbad]].
    + apply Z.eqb_eq in Hs. contradiction.
    + rewrite Hbad. reflexivity.
    + rewrite Hbad. destruct (assoc "main" kv); reflexivity.
  - reflexivity.
Qed.

End DashboardWeather.

(** X21: the dashboard's weather falls back to 25.0 degrees.  Without a key
    (unset or empty) the sidebar goes on with 25.0, "Clear", the icon "01d"
    and the text typed as the city, whatever [requests.get] would do; with a
    key, the same happens whenever the provider's reply is a JSON object and
    either the status is not 200 or the object lacks "main" or "weather".
    The backend's default in the same situations is 22.0. *)
Theorem sidebar_weather_defaults :
  forall (rt : Runtime) (key : option string)
         (get : list (string * pyval) -> result Reply) (city_input : string),
    (key = None \/ key = Some EmptyString
     \/ exists k r kv,
          key = Some k /\ k <> EmptyString
          /\ get (weather_params k city_input) = Ok r
          /\ reply_json r = Ok (PyDict kv)
          /\ (status_code r <> 200 \/ assoc "main" kv = None
              \/ assoc "weather" kv = None)) ->
    sidebar_weather key get city_input
    = Ok (PyDict [("temp", PyFloat 25); ("desc", PyStr "Clear");
                  ("icon", PyStr "01d"); ("city", PyStr city_input)]%string).
Proof.
  intros rt key get city_input [-> | [-> | (k & r & kv & -> & Hk & Hg & Hj & Hbad)]].
  - reflexivity.
  - reflexivity.
  - unfold sidebar_weather.
    rewrite (fetch_weather_error_reply k get city_input r kv Hk Hg Hj Hbad).
    reflexivity.
Qed.

(** X21, on a city the provider does not know: status 404 with a message. *)
Lemma sidebar_weather_defaults_witness :
  @sidebar_weather sample_runtime (Some "k"%string)
    (fun _ => Ok {| status_code := 404;
                    reply_json := Ok (PyDict [("cod", PyStr "404");
                                              ("message", PyStr "city not found")]%string) |})
    "Atlantis"
  = Ok (PyDict [("temp", PyFloat 25); ("desc", PyStr "Clear");
                ("icon", PyStr "01d"); ("city", PyStr "Atlantis")]%string).
Proof.
  apply (sidebar_weather_defaults sample_runtime).
  right; right.
  exists "k"%string,
         {| status_code := 404;
            reply_json := Ok (PyDict [("cod", PyStr "404");
                                      ("message", PyStr "city not found")]%string) |},
         [("cod", PyStr "404"); ("message", PyStr "city not found")]%string.
  repeat split; try reflexivity; [ discriminate | left; cbn; lia ].
Defined.

(** X22: what the dashboard's weather fetch does not absorb.  With a key,
    an exception of [requests.get] (provider unreachable) or of [json()]
    (body that is not JSON) leaves [fetch_weather], and so the sidebar, as
    that exception; a reply whose body is a JSON list raises too:
    [AttributeError], [get] being no method of a list, or [TypeError] from
    [d["main"]] when the status is 200 and the list holds both strings
    "main" and "weather".  The backend's [get_weather_info] turns every one
    of these into a reading. *)
Theorem fetch_weather_propagates_failure :
  forall (rt : Runtime) (k : string)
         (get : list (string * pyval) -> result Reply) (city_input : string),
    k <> EmptyString ->
    (forall e, get (weather_params k city_input) = Raise e ->
               sidebar_weather (Some k) get city_input = Raise e)
    /\ (forall r e, get (weather_params k city_input) = Ok r ->
                    reply_json r = Raise e ->
                    sidebar_weather (Some k) get city_input = Raise e)
    /\ (forall r l, get (weather_params k city_input) = Ok r ->
                    reply_json r = Ok (PyList l) ->
                    sidebar_weather (Some k) get city_input
                    = Raise (if (status_code r =? 200)
                                && existsb (is_str "main") l
                                && existsb (is_str "weather") l
                             then TypeError else AttributeError)).
Proof.
  intros rt k get city_input Hk.
  destruct k as [|c k]; [ congruence | ].
  unfold sidebar_weather, fetch_weather.
  refine (conj _ (conj _ _)).
  - intros e He. rewrite He. reflexivity.
  - intros r e Hr He. rewrite Hr. cbn [bind]. rewrite He. reflexivity.
  - intros r l Hr Hl. rewrite Hr. cbn [bind]. rewrite Hl.
    cbn [bind py_contains].
    destruct (status_code r =? 200); cbn [negb bind andb].
    + destruct (existsb (is_str "main") l); cbn [negb bind andb].
      * destruct (existsb (is_str "weather") l); reflexivity.
      * reflexivity.
    + reflexivity.
Qed.

(** X22, with the provider unreachable. *)
Lemma fetch_weather_propagates_failure_witness :
  @sidebar_weather sample_runtime (Some "k"%string)
    (fun _ => Raise (RequestException "unreachable")) "Darbhanga"
  = Raise (RequestException "unreachable").
Proof.
  apply (proj1 (fetch_weather_propagates_failure sample_runtime "k"
                  (fun _ => Raise (RequestException "unreachable")) "Darbhanga"
                  ltac:(discriminate))).
  reflexivity.
Defined.

(** X23: by name or by position.  A text without a comma is sent as the
    query [q], exactly as typed.  A text [a,b] whose part [a] holds no comma
    is sent as [lat] and [lon] when both parts, stripped, read as numbers,
    and as the query [q] (the whole text, comma included) when one of them
    does not.  The key and the metric units go with every request. *)
Theorem weather_params_by_name_or_position :
  forall (rt : Runtime) (key a b : string),
    str_in "," a = false ->
    weather_params key a
    = [("q", PyStr a); ("appid", PyStr key); ("units", PyStr "metric")]%string
    /\ weather_params key (a ++ String "," b)
       = match float_of_str (str_strip a), float_of_str (str_strip b) with
         | Some lat, Some lon =>
             [("lat", PyFloat lat); ("lon", PyFloat lon);
              ("appid", PyStr key); ("units", PyStr "metric")]%string
         | _, _ =>
             [("q", PyStr (a ++ String "," b));
              ("appid", PyStr key); ("units", PyStr "metric")]%string
         end.
Proof.
  intros rt key a b Ha. split.
  - unfold weather_params. rewrite (coordinates_without_comma a Ha).
    reflexivity.
  - unfold weather_params, coordinates.
    destruct (split_comma_first a b Ha) as [-> ->].
    destruct (float_of_str (str_strip a)) as [lat|];
      [ destruct (float_of_str (str_strip b)) as [lon|] | ]; reflexivity.
Qed.

(** X23, on a position typed with a blank after the comma. *)
Lemma weather_params_by_name_or_position_witness :
  @weather_params sample_runtime "k" "26, 85"
  = [("lat", PyFloat 26); ("lon", PyFloat 85);
     ("appid", PyStr "k"); ("units", PyStr "metric")]%string.
Proof.
  exact (proj2 (weather_params_by_name_or_position sample_runtime "k" "26" " 85"
                  eq_refl)).
Defined.

(** X24: the temperature the dashboard works with is the provider's.  On a
    reply with status 200 whose body holds [main.temp], a description and an
    icon, the sidebar's weather has the provider's temperature and icon
    unchanged, the description in title case, and as city the provider's
    name, or the text typed when the name is missing or empty. *)
Theorem sidebar_weather_from_provider :
  forall (rt : Runtime) (k : string)
         (get : list (string * pyval) -> result Reply) (city_input : string)
         (r : Reply) (kv main first : list (string * pyval))
         (rest : list pyval) (temp icon : pyval) (description : string),
    k <> EmptyString ->
    get (weather_params k city_input) = Ok r ->
    status_code r = 200 ->
    reply_json r = Ok (PyDict kv) ->
    assoc "main" kv = Some (PyDict main) ->
    assoc "temp" main = Some temp ->
    assoc "weather" kv = Some (PyList (PyDict first :: rest)) ->
    assoc "description" first = Some (PyStr description) ->
    assoc "icon" first = Some icon ->
    sidebar_weather (Some k) get city_input
    = Ok (PyDict [("error", PyBool false);
                  ("temp", temp);
                  ("desc", PyStr (str_title description));
                  ("icon", icon);
                  ("city", match assoc "name" kv with
                           | Some name => py_or name (PyStr city_input)
                           | None => PyStr city_input
                           end)]%string).
Proof.
  intros rt k get city_input r kv main first rest temp icon description
    Hk Hg Hs Hj Hm Ht Hw Hd Hi.
  destruct k as [|c k]; [ congruence | ].
  unfold sidebar_weather, fetch_weather.
  rewrite Hg. cbn [bind]. rewrite Hj, Hs.
  cbn [bind py_contains py_getitem py_getitem0 py_get Z.eqb Pos.eqb negb].
  repeat (rewrite ?Hm, ?Hw, ?Ht, ?Hd, ?Hi;
          cbn [bind py_contains py_getitem py_getitem0 py_get py_title negb]).
  destruct (assoc "name" kv) as [name|]; reflexivity.
Qed.

(** X24, on a reply for Patna at 31.5 degrees. *)
Lemma sidebar_weather_from_provider_witness :
  @sidebar_weather sample_runtime (Some "k"%string)
    (fun _ => Ok {| status_code := 200;
                    reply_json :=
                      Ok (PyDict [("main", PyDict [("temp", PyFloat 31.5)]);
                                  ("weather",
                                   PyList [PyDict [("description", PyStr "light rain");
                                                   ("icon", PyStr "10d")]]);
                                  ("name", PyStr "Patna")]%string) |})
    "patna"
  = Ok (PyDict [("error", PyBool false);
                ("temp", PyFloat 31.5);
                ("desc", PyStr "Light Rain");
                ("icon", PyStr "10d");
                ("city", PyStr "Patna")]%string).
Proof.
  exact (sidebar_weather_from_provider sample_runtime "k" _ "patna"
           {| status_code := 200;
              reply_json :=
                Ok (PyDict [("main", PyDict [("temp", PyFloat 31.5)]);
                            ("weather",
                             PyList [PyDict [("description", PyStr "light rain");
                                             ("icon", PyStr "10d")]]);
                            ("name", PyStr "Patna")]%string) |}
           _ [("temp", PyFloat 31.5)]%string
           [("description", PyStr "light rain"); ("icon", PyStr "10d")]%string
           [] (PyFloat 31.5) (PyStr "10d") "light rain"
           ltac:(discriminate) eq_refl eq_refl eq_refl eq_refl eq_refl eq_refl
           eq_refl eq_refl).
Defined.

(** ** The occupancy blend *)

Section Blend.

Lemma blend_ends_checked :
  forallb (fun raw => forallb (blend_ends_ok raw) (Z_range 0 201))
    (Z_range 0 251) = true.
Proof. vm_compute. reflexivity. Qed.

End Blend.

(** X25: the ends of the blend slider.  For a sensor occupancy from 0 to 250
    (what the feed can post) and a profile occupancy from 0 to 200, a blend
    of 0 gives the sensor's occupancy and a blend of 1 the profile's: the
    conversions through [float] and back lose nothing. *)
Theorem blended_occupancy_ends :
  forall occupancy_raw profile_occ : Z,
    0 <= occupancy_raw <= 250 -> 0 <= profile_occ <= 200 ->
    blended_occupancy 0 occupancy_raw profile_occ = Ok occupancy_raw
    /\ blended_occupancy 1 occupancy_raw profile_occ = Ok profile_occ.
Proof.
  intros raw profile Hr Hp.
  pose proof blend_ends_checked as H.
  rewrite forallb_forall in H.
  specialize (H raw (in_Z_range 0 251 raw ltac:(lia))).
  rewrite forallb_forall in H.
  specialize (H profile (in_Z_range 0 201 profile ltac:(lia))).
  unfold blend_ends_ok in H.
  destruct (blended_occupancy 0 raw profile) as [x|]; [ | discriminate ].
  destruct (blended_occupancy 1 raw profile) as [y|]; [ | discriminate ].
  apply andb_prop in H. destruct H as [Hx Hy].
  apply Z.eqb_eq in Hx, Hy. subst. split; reflexivity.
Qed.

(** X25, on 120 people counted and 90 expected. *)
Lemma blended_occupancy_ends_witness :
  blended_occupancy 0 120 90 = Ok 120 /\ blended_occupancy 1 120 90 = Ok 90.
Proof. apply (blended_occupancy_ends 120 90); lia. Defined.

(** ** The key set up by hand *)


